(** * QingPing sensor data server: a shallow embedding and its properties

    The program is [tools/qingping_sensor_server.py]: an HTTP handler
    ([SensorHTTPRequestHandler]) in front of one shared record
    ([SensorDataStore]) holding the latest reading, the time it arrived and
    two counters.

    Layout of this file:
    - the pieces of Python the handler relies on (exceptions, [int] on a
      header value, [bytes.decode('utf-8')], JSON values, dictionaries);
    - the platform interface [Platform]: the clock, [json.loads] and
      [json.dumps], string formatting, the literal markup of the HTML
      templates, and how much memory there is;
    - a state-and-exception monad [M] over the [World] the handler acts on;
    - [SensorDataStore] and [SensorHTTPRequestHandler], method by method;
    - the properties of the handler.

    Conventions.
    - Text that comes off the wire in the request line and the headers is
      Latin-1 ([http.client] decodes it so): it is a [string], one character
      per byte.  Text that comes out of the request body is Unicode: it is a
      [text], a list of code points.
    - The two counters start at 0 and are only ever incremented by one;
      Python integers do not wrap, so the counters are natural numbers ([N]).
    - Writing to the client socket and to [stderr] is taken to succeed.
    - [HTTPServer] handles one request at a time, so handlers never
      interleave.
    - The interpreter is a 64-bit CPython with its default limits:
      [sys.maxsize] is 2^63 - 1 and [int] converts no more than 4300
      digits.  What the machine has room for is left to the platform. *)

From Stdlib Require Import List String Ascii ZArith NArith Bool Lia.
From Stdlib Require Import Strings.Byte.
Import ListNotations.

Local Open Scope string_scope.
Local Open Scope Z_scope.

(** ** Python values and exceptions *)

(** A Python [str] built from the request body: a sequence of code points. *)
Definition text := list N.

(** A Latin-1 string seen as text. *)
Definition u (s : string) : text :=
  map N_of_ascii (list_ascii_of_string s).

Definition text_eqb (a b : text) : bool :=
  if list_eq_dec N.eq_dec a b then true else false.

(** The exception classes the handler can meet.  All of them derive from
    [Exception]; only [JSONDecodeError] is matched by the first [except]
    clause of [do_POST]. *)
Inductive exc_class :=
| JSONDecodeError
| UnicodeDecodeError
| ValueError
| TypeError
| AttributeError
| KeyError
| RecursionError
| MemoryError
| OverflowError
| UnicodeEncodeError.

(** An exception: its class and [str(e)].  Where the interpreter puts the
    offending value into the message (the literal given to [int], the
    position of a byte that is not UTF-8), only the fixed part of the
    message is kept. *)
Record exception := mkExc { exc_class_of : exc_class; exc_str : text }.

Definition is_JSONDecodeError (e : exception) : bool :=
  match exc_class_of e with JSONDecodeError => true | _ => false end.

(** The result of evaluating a Python expression. *)
Inductive Result (A : Type) :=
| Ok (a : A)
| Raise (e : exception).
Arguments Ok {A} a.
Arguments Raise {A} e.

(** *** [int(s)] on a header value

    [int] strips white space on both sides, accepts one sign, and then wants
    decimal digits, where single underscores may separate digits.  Anything
    else raises [ValueError].  So does a literal with more digits than the
    interpreter converts: [sys.int_info.default_max_str_digits], which is
    4300; leading zeros count, the sign, the underscores and the white space
    do not. *)

Definition is_space (c : ascii) : bool :=
  let n := Z.of_N (N_of_ascii c) in
  ((9 <=? n) && (n <=? 13)) || (n =? 32) || (n =? 133) || (n =? 160).

Definition digit_value (c : ascii) : option Z :=
  let n := Z.of_N (N_of_ascii c) in
  if (48 <=? n) && (n <=? 57) then Some (n - 48) else None.

Fixpoint lstrip (l : list ascii) : list ascii :=
  match l with
  | c :: r => if is_space c then lstrip r else l
  | [] => []
  end.

Definition strip (l : list ascii) : list ascii :=
  rev (lstrip (rev (lstrip l))).

Definition default_max_str_digits : nat := 4300.

Inductive int_scan := AtStart | AfterDigit | AfterUnderscore.

(** The run of digits and single underscores at the head of [l]: its value,
    the number of its digits and what follows it; nothing when an underscore
    does not stand between two digits. *)
Fixpoint scan_digits (prev : int_scan) (acc : Z) (digits : nat) (l : list ascii)
  : option (Z * nat * list ascii) :=
  match l with
  | [] =>
      match prev with
      | AfterUnderscore => None
      | _ => Some (acc, digits, [])
      end
  | c :: r =>
      match digit_value c with
      | Some d => scan_digits AfterDigit (10 * acc + d) (S digits) r
      | None =>
          if Ascii.eqb c "_"%char
          then match prev with
               | AfterDigit => scan_digits AfterUnderscore acc digits r
               | _ => None
               end
          else match prev with
               | AfterUnderscore => None
               | _ => Some (acc, digits, l)
               end
      end
  end.

(** The sign of a literal and what follows the sign. *)
Definition split_sign (l : list ascii) : bool * list ascii :=
  match l with
  | c :: r =>
      if Ascii.eqb c "-"%char then (true, r)
      else if Ascii.eqb c "+"%char then (false, r)
      else (false, l)
  | [] => (false, [])
  end.

Definition invalid_literal : exception :=
  mkExc ValueError (u "invalid literal for int() with base 10").

Definition too_many_digits : exception :=
  mkExc ValueError (u "Exceeds the limit (4300 digits) for integer string conversion").

Definition py_int (s : string) : Result Z :=
  let (negative, literal) := split_sign (strip (list_ascii_of_string s)) in
  match scan_digits AtStart 0 0 literal with
  | Some (n, digits, rest) =>
      if (default_max_str_digits <? digits)%nat then Raise too_many_digits
      else
        match digits, rest with
        | S _, [] => Ok (if negative then - n else n)
        | _, _ => Raise invalid_literal
        end
  | None => Raise invalid_literal
  end.

(** *** [bytes.decode('utf-8')]

    The strict decoder: shortest forms only, no surrogates, nothing above
    U+10FFFF.  A malformed body raises [UnicodeDecodeError]. *)

Definition in_range (lo hi b : N) : bool := ((lo <=? b) && (b <=? hi))%N.

Definition continuation (b : N) : bool := in_range 128 191 b.

Fixpoint utf8_code_points (bs : list N) : option text :=
  match bs with
  | [] => Some []
  | b0 :: r0 =>
      if (b0 <? 128)%N then option_map (cons b0) (utf8_code_points r0)
      else if in_range 194 223 b0 then
        match r0 with
        | b1 :: r1 =>
            if continuation b1
            then option_map (cons ((b0 - 192) * 64 + (b1 - 128))%N)
                            (utf8_code_points r1)
            else None
        | _ => None
        end
      else if in_range 224 239 b0 then
        match r0 with
        | b1 :: b2 :: r2 =>
            if in_range (if (b0 =? 224)%N then 160 else 128)
                        (if (b0 =? 237)%N then 159 else 191) b1
               && continuation b2
            then option_map
                   (cons ((b0 - 224) * 4096 + (b1 - 128) * 64 + (b2 - 128))%N)
                   (utf8_code_points r2)
            else None
        | _ => None
        end
      else if in_range 240 244 b0 then
        match r0 with
        | b1 :: b2 :: b3 :: r3 =>
            if in_range (if (b0 =? 240)%N then 144 else 128)
                        (if (b0 =? 244)%N then 143 else 191) b1
               && continuation b2 && continuation b3
            then option_map
                   (cons ((b0 - 240) * 262144 + (b1 - 128) * 4096
                          + (b2 - 128) * 64 + (b3 - 128))%N)
                   (utf8_code_points r3)
            else None
        | _ => None
        end
      else None
  end.

Definition decode_utf8 (post_data : list byte) : Result text :=
  match utf8_code_points (map Byte.to_N post_data) with
  | Some t => Ok t
  | None => Raise (mkExc UnicodeDecodeError (u "'utf-8' codec can't decode bytes"))
  end.

(** *** JSON values, as [json.loads] builds them *)

(** A Python [float]: a signed binary fraction, an infinity or a NaN. *)
Inductive pyfloat :=
| Finite (negative : bool) (mantissa : N) (exponent : Z)
| Infinity (negative : bool)
| NaN.

#[warnings="-register-all"]
Inductive json :=
| JNull
| JBool (b : bool)
| JInt (n : Z)
| JFloat (f : pyfloat)
| JStr (s : text)
| JList (l : list json)
| JDict (d : list (text * json)).

(** [type(v).__name__], as it appears in an [AttributeError]. *)
Definition type_name (v : json) : string :=
  match v with
  | JNull => "NoneType"
  | JBool _ => "bool"
  | JInt _ => "int"
  | JFloat _ => "float"
  | JStr _ => "str"
  | JList _ => "list"
  | JDict _ => "dict"
  end.

Fixpoint lookup {V : Type} (k : text) (d : list (text * V)) : option V :=
  match d with
  | [] => None
  | (k', v) :: r => if text_eqb k' k then Some v else lookup k r
  end.

(** [v.get(key, default)]: only a dict has the method. *)
Definition py_get (v : json) (key : text) (default : json) : Result json :=
  match v with
  | JDict d => Ok (match lookup key d with Some x => x | None => default end)
  | _ => Raise (mkExc AttributeError
                  (u ("'" ++ type_name v ++ "' object has no attribute 'get'")))
  end.

(** [key in v] *)
Fixpoint starts_with (p s : text) : bool :=
  match p, s with
  | [], _ => true
  | a :: p', b :: s' => N.eqb a b && starts_with p' s'
  | _ :: _, [] => false
  end.

Fixpoint contains_text (p s : text) : bool :=
  starts_with p s ||
  match s with
  | [] => false
  | _ :: s' => contains_text p s'
  end.

Definition is_str (key : text) (v : json) : bool :=
  match v with JStr s => text_eqb s key | _ => false end.

Definition py_contains (key : text) (v : json) : Result bool :=
  match v with
  | JDict d => Ok (match lookup key d with Some _ => true | None => false end)
  | JList l => Ok (existsb (is_str key) l)
  | JStr s => Ok (contains_text key s)
  | _ => Raise (mkExc TypeError
                  (u ("argument of type '" ++ type_name v ++ "' is not iterable")))
  end.

(** [v[key]] with a string key *)
Definition py_getitem (v : json) (key : text) : Result json :=
  match v with
  | JDict d =>
      match lookup key d with
      | Some x => Ok x
      | None => Raise (mkExc KeyError key)
      end
  | JList _ =>
      Raise (mkExc TypeError (u "list indices must be integers or slices, not str"))
  | JStr _ =>
      Raise (mkExc TypeError (u "string indices must be integers, not 'str'"))
  | _ =>
      Raise (mkExc TypeError (u ("'" ++ type_name v ++ "' object is not subscriptable")))
  end.

(** [bool(v)] *)
Definition truthy (v : json) : bool :=
  match v with
  | JNull => false
  | JBool b => b
  | JInt n => negb (n =? 0)
  | JFloat (Finite _ m _) => negb (m =? 0)%N
  | JFloat _ => true
  | JStr s => match s with [] => false | _ => true end
  | JList l => match l with [] => false | _ => true end
  | JDict d => match d with [] => false | _ => true end
  end.

(** [f > bound] for a float and an integer: the comparison is exact. *)
Definition float_gt (f : pyfloat) (bound : Z) : bool :=
  match f with
  | Finite negative m e =>
      let num := if negative then - Z.of_N m else Z.of_N m in
      if 0 <=? e then bound <? num * 2 ^ e else bound * 2 ^ (- e) <? num
  | Infinity negative => negb negative
  | NaN => false
  end.

(** [v > bound] *)
Definition py_gt (v : json) (bound : Z) : Result bool :=
  match v with
  | JInt n => Ok (bound <? n)
  | JBool b => Ok (bound <? (if b then 1 else 0))
  | JFloat f => Ok (float_gt f bound)
  | _ => Raise (mkExc TypeError
                  (u ("'>' not supported between instances of '" ++ type_name v
                      ++ "' and 'int'")))
  end.

(** [v == 0] *)
Definition py_eq_zero (v : json) : bool :=
  match v with
  | JInt n => n =? 0
  | JBool b => negb b
  | JFloat (Finite _ m _) => (m =? 0)%N
  | _ => false
  end.

(** *** Dictionaries and header sets with string keys *)

(** A [Dict[str, str]] in insertion order. *)
Definition dict := list (string * string).

Fixpoint dict_lookup (k : string) (d : dict) : option string :=
  match d with
  | [] => None
  | (k', v) :: r => if String.eqb k' k then Some v else dict_lookup k r
  end.

(** [d.get(k, default)] *)
Definition dict_get (d : dict) (k default : string) : string :=
  match dict_lookup k d with Some v => v | None => default end.

(** [d[k]] *)
Definition dict_getitem (d : dict) (k : string) : Result string :=
  match dict_lookup k d with
  | Some v => Ok v
  | None => Raise (mkExc KeyError (u ("'" ++ k ++ "'")))
  end.

(** Header names compare without regard to case; the first header of that
    name wins ([email.message.Message.get]). *)
Definition lower (c : ascii) : ascii :=
  let n := nat_of_ascii c in
  if (Nat.leb 65 n && Nat.leb n 90)%bool then ascii_of_nat (n + 32) else c.

Fixpoint lower_string (s : string) : string :=
  match s with
  | EmptyString => EmptyString
  | String c r => String (lower c) (lower_string r)
  end.

Fixpoint message_lookup (name : string) (hs : list (string * string))
  : option string :=
  match hs with
  | [] => None
  | (k, v) :: r =>
      if String.eqb (lower_string k) (lower_string name) then Some v
      else message_lookup name r
  end.

(** [message.get(name, default)] with a string default. *)
Definition message_get (hs : list (string * string)) (name default : string)
  : string :=
  match message_lookup name hs with Some v => v | None => default end.

(** [html.encode('utf-8')]: a lone surrogate (which [json.loads] lets
    through from an escape) cannot be encoded. *)
Definition encode_utf8 (t : text) : Result text :=
  if existsb (in_range 55296 57343) t
  then Raise (mkExc UnicodeEncodeError (u "'utf-8' codec can't encode characters"))
  else Ok t.

(** ** The data model *)

(** A point in time, as [datetime.now()] returns it. *)
Definition datetime := Z.

(** The value of [latest_data]: the dict literal built by [add_reading],
    with its two fixed keys; [metadata] is itself a dict. *)
Record Reading := mkReading {
  sensor_data : json;
  metadata : dict
}.

Record SensorDataStore := mkStore {
  latest_data : option Reading;
  last_updated : option datetime;
  total_received : N;
  error_count : N
}.

(** [SensorDataStore.__init__] *)
Definition init_store : SensorDataStore :=
  {| latest_data := None; last_updated := None;
     total_received := 0; error_count := 0 |}.

(** One card of the dashboard, as [_format_sensor_value] fills it in;
    [card_status] is [None] for the text "Normal". *)
Record SensorCard := mkCard {
  card_class : string;
  card_name : string;
  card_value : json;
  card_unit : text;
  card_status : option json
}.

(** The values [_get_data_html] puts into its template. *)
Record DataPage := mkDataPage {
  page_last_updated : datetime;
  page_total_received : N;
  page_error_count : N;
  page_mac : json;
  page_sensors : option (list SensorCard);   (* [None]: no sensor section *)
  page_metadata : list (string * string);
  page_raw_json : text
}.

(** A dashboard page before its markup is written out: which template, and
    the values put into it. *)
Inductive html :=
| NoDataHtml (total_received error_count : N) (last_refresh : datetime)
| DataHtml (page : DataPage).

(** The dict that [do_GET] serialises on the stats path. *)
Record Stats := mkStats {
  stats_total_received : N;
  stats_error_count : N;
  stats_last_updated : option datetime;
  stats_has_data : bool
}.

(** ** The platform

    What the program takes from the interpreter and the standard library
    without defining it, and the literal markup of its HTML templates. *)
Class Platform := {
  (** the value returned by the [n]-th call of [datetime.now()] *)
  clock : nat -> datetime;
  (** [json.loads] *)
  json_loads : text -> Result json;
  (** [json.dumps(v, indent=2)] *)
  json_dumps : json -> text;
  (** [format(v, '')], what an f-string does with a parsed value *)
  format_value : json -> text;
  (** [fmt % ()], what [log_message] does with a ready-made message *)
  percent_no_args : text -> Result text;
  (** the text of a page: the markup of the templates around the values put
      into them, the values formatted as f-strings and [strftime] do *)
  markup : html -> text;
  (** whether the machine has no room for a [bytes] object of that many
      bytes *)
  out_of_memory : Z -> bool
}.

(** ** The world a handler acts on *)

(** One line on [stderr]. *)
Inductive log_line :=
| LogText (t : text)                      (* a message logged by the program *)
| LogRequest (code : Z)                   (* [log_request], from [send_response] *)
| LogError (code : Z) (message : text).   (* [log_error], from [send_error] *)

(** What is written after the response headers. *)
Inductive payload :=
| HtmlBody (html : text)
| StatsBody (stats : Stats)
| ReceivedBody (received_at : datetime).

(** What the handler puts on the wire, call by call. *)
Inductive sent :=
| ResponseLine (code : Z)
| HeaderLine (name value : string)
| EndHeaders
| Body (p : payload)
| ErrorResponse (code : Z) (message : text).

Record World := mkWorld {
  data_store : SensorDataStore;     (* the class-level store, shared by all requests *)
  now_calls : nat;                  (* how often [datetime.now()] was called *)
  stderr : list (datetime * log_line);
  rfile : list byte;                (* what is left to read of the request *)
  wfile : list sent                 (* what was written to the client *)
}.

(** A request as the handler object holds it when a [do_] method starts;
    [body_stream] is what the client sends after the headers before it
    stops sending. *)
Inductive method := GET | POST.

Record Request := mkRequest {
  command : method;
  path : string;
  headers : list (string * string);
  body_stream : list byte
}.

(** ** State and exceptions

    An exception leaves every change made before it in place, as in
    Python. *)
Definition M (A : Type) := World -> Result A * World.

Definition ret {A} (a : A) : M A := fun w => (Ok a, w).

Definition bind {A B} (m : M A) (k : A -> M B) : M B :=
  fun w => match m w with
           | (Ok a, w') => k a w'
           | (Raise e, w') => (Raise e, w')
           end.

Definition lift {A} (r : Result A) : M A := fun w => (r, w).

(** [try: body  except ... as e: handler e] *)
Definition try_except {A} (body : M A) (handler : exception -> M A) : M A :=
  fun w => match body w with
           | (Ok a, w') => (Ok a, w')
           | (Raise e, w') => handler e w'
           end.

Declare Scope monad_scope.
Delimit Scope monad_scope with M.
Notation "x <- c ;; k" := (bind c (fun x => k))
  (at level 61, c at next level, right associativity) : monad_scope.
Notation "c ;; k" := (bind c (fun _ => k))
  (at level 61, right associativity) : monad_scope.
Local Open Scope monad_scope.

Definition get_store : M SensorDataStore := fun w => (Ok (data_store w), w).

Definition put_store (s : SensorDataStore) : M unit :=
  fun w => (Ok tt, mkWorld s (now_calls w) (stderr w) (rfile w) (wfile w)).

Definition write_stderr (t : datetime) (l : log_line) : M unit :=
  fun w => (Ok tt, mkWorld (data_store w) (now_calls w) (stderr w ++ [(t, l)])
                           (rfile w) (wfile w)).

Definition emit (x : sent) : M unit :=
  fun w => (Ok tt, mkWorld (data_store w) (now_calls w) (stderr w) (rfile w)
                           (wfile w ++ [x])).

(** The largest index of a 64-bit build ([sys.maxsize]), and the largest
    [bytes] object there is room for below it, the header of the object
    taking 33 bytes. *)
Definition PY_SSIZE_T_MAX : Z := 2 ^ 63 - 1.

Definition max_bytes_size : Z := PY_SSIZE_T_MAX - 33.

Section Server.

Context {P : Platform}.

(** [rfile.read(size)] on the buffered reader of the connection.

    A size below -1 is refused.  For a size that is not negative the reader
    first makes a [bytes] object of that size, whatever the client sent, and
    raises when it cannot: [OverflowError] for a size that is no index or is
    too large for a [bytes] object, [MemoryError] for a size the machine has
    no room for.  In each case it raises before it takes anything from the
    stream. *)
Definition read_failure (size : Z) : option exception :=
  if size <? -1 then
    Some (mkExc ValueError (u "read length must be non-negative or -1"))
  else if size =? -1 then None
  else if PY_SSIZE_T_MAX <? size then
    Some (mkExc OverflowError (u "cannot fit 'int' into an index-sized integer"))
  else if max_bytes_size <? size then
    Some (mkExc OverflowError (u "byte string is too large"))
  else if out_of_memory size then Some (mkExc MemoryError [])
  else None.

Definition rfile_read (size : Z) : M (list byte) :=
  fun w =>
    match read_failure size with
    | Some e => (Raise e, w)
    | None =>
        let n := if size =? -1 then List.length (rfile w) else Z.to_nat size in
        (Ok (firstn n (rfile w)),
         mkWorld (data_store w) (now_calls w) (stderr w) (skipn n (rfile w))
                 (wfile w))
    end.

(** [datetime.now()] *)
Definition now : M datetime :=
  fun w => (Ok (clock (now_calls w)),
            mkWorld (data_store w) (S (now_calls w)) (stderr w) (rfile w) (wfile w)).

(** *** [SensorDataStore] *)

Definition add_reading (data : json) (headers : dict) : M unit :=
  s <- get_store ;;
  put_store (mkStore
    (Some {| sensor_data := data;
             metadata :=
               [ ("source_ip", dict_get headers "X-Source-IP" "unknown");
                 ("destination_ip", dict_get headers "X-Destination-IP" "unknown");
                 ("destination_port", dict_get headers "X-Destination-Port" "unknown");
                 ("protocol", dict_get headers "X-Protocol" "unknown");
                 ("timestamp", dict_get headers "X-Timestamp" "unknown");
                 ("mqtt_topic", dict_get headers "X-MQTT-Topic" "N/A") ] |})
    (last_updated s) (total_received s) (error_count s)) ;;
  t <- now ;;
  s <- get_store ;;
  put_store (mkStore (latest_data s) (Some t) (total_received s) (error_count s)) ;;
  s <- get_store ;;
  put_store (mkStore (latest_data s) (last_updated s) (total_received s + 1)%N
                     (error_count s)).

Definition increment_errors : M unit :=
  s <- get_store ;;
  put_store (mkStore (latest_data s) (last_updated s) (total_received s)
                     (error_count s + 1)%N).

Definition _get_no_data_html : M html :=
  s <- get_store ;;
  last_refresh <- now ;;
  ret (NoDataHtml (total_received s) (error_count s) last_refresh).

Definition _format_sensor_value (name : string) (sensor_obj : json) (unit : text)
  : M (option SensorCard) :=
  if negb (truthy sensor_obj) then ret None
  else
    has_value <- lift (py_contains (u "value") sensor_obj) ;;
    if negb has_value then ret None
    else
      value <- lift (py_getitem sensor_obj (u "value")) ;;
      status <- lift (py_get sensor_obj (u "status") (JInt 0)) ;;
      warning <-
        (if (name =? "CO2")%string then lift (py_gt value 1000)
         else if ((name =? "PM2.5") || (name =? "PM10"))%string
              then lift (py_gt value 35)
              else ret false) ;;
      let card_class :=
        ("sensor-card" ++ if warning then " warning" else " good")%string in
      let status_text := if py_eq_zero status then None else Some status in
      ret (Some (mkCard card_class name value unit status_text)).

(** The seven cards of the sensor section, in the order of the template:
    title, key in the reading, unit. *)
Definition sensor_table : list (string * string * text) :=
  [ ("Temperature", "temperature", [176; 67]%N);
    ("Humidity", "humidity", u "%");
    ("CO2", "co2", u "ppm");
    ("PM2.5", "pm25", [956; 103; 47; 109; 179]%N);
    ("PM10", "pm10", [956; 103; 47; 109; 179]%N);
    ("TVOC", "tvoc", u "ppb");
    ("Battery", "battery", u "%") ].

Fixpoint sensor_cards (latest_reading : json) (rows : list (string * string * text))
  : M (list SensorCard) :=
  match rows with
  | [] => ret []
  | (name, key, unit) :: rest =>
      sensor_obj <- lift (py_get latest_reading (u key) (JDict [])) ;;
      card <- _format_sensor_value name sensor_obj unit ;;
      cards <- sensor_cards latest_reading rest ;;
      ret (match card with Some c => c :: cards | None => cards end)
  end.

Definition _get_data_html : M html :=
  s <- get_store ;;
  latest <- lift (match latest_data s with
                  | Some r => Ok r
                  | None => Raise (mkExc TypeError
                                     (u "'NoneType' object is not subscriptable"))
                  end) ;;
  let data := sensor_data latest in
  let meta := metadata latest in
  has_sensors <- lift (py_contains (u "sensorData") data) ;;
  sensor_data_html <-
    (if has_sensors then
       readings <- lift (py_getitem data (u "sensorData")) ;;
       match readings with
       | JList (latest_reading :: _) =>
           cards <- sensor_cards latest_reading sensor_table ;;
           ret (Some cards)
       | _ => ret None
       end
     else ret None) ;;
  let raw_json := json_dumps data in
  s <- get_store ;;
  updated <- lift (match last_updated s with
                   | Some t => Ok t
                   | None => Raise (mkExc AttributeError
                                      (u "'NoneType' object has no attribute 'strftime'"))
                   end) ;;
  mac <- lift (py_get data (u "mac") (JStr (u "N/A"))) ;;
  source_ip <- lift (dict_getitem meta "source_ip") ;;
  destination_ip <- lift (dict_getitem meta "destination_ip") ;;
  destination_port <- lift (dict_getitem meta "destination_port") ;;
  protocol <- lift (dict_getitem meta "protocol") ;;
  mqtt_topic <- lift (dict_getitem meta "mqtt_topic") ;;
  timestamp <- lift (dict_getitem meta "timestamp") ;;
  ret (DataHtml
         {| page_last_updated := updated;
            page_total_received := total_received s;
            page_error_count := error_count s;
            page_mac := mac;
            page_sensors := sensor_data_html;
            page_metadata :=
              [ ("Source IP", source_ip); ("Destination IP", destination_ip);
                ("Destination Port", destination_port); ("Protocol", protocol);
                ("MQTT Topic", mqtt_topic); ("Timestamp", timestamp) ];
            page_raw_json := raw_json |}).

Definition get_html_display : M html :=
  s <- get_store ;;
  match latest_data s with
  | None => _get_no_data_html
  | Some _ => _get_data_html
  end.

(** *** [SensorHTTPRequestHandler] *)

(** [log_message(format)] as the program calls it: with a message it has
    already put together and no further arguments. *)
Definition log_message (format : text) : M unit :=
  timestamp <- now ;;
  line <- lift (percent_no_args format) ;;
  write_stderr timestamp (LogText line).

(** The inherited methods.  Each logs through the overridden
    [log_message], with a fixed format that fits its arguments. *)
Definition log_request (code : Z) : M unit :=
  timestamp <- now ;;
  write_stderr timestamp (LogRequest code).

Definition log_error (code : Z) (message : text) : M unit :=
  timestamp <- now ;;
  write_stderr timestamp (LogError code message).

Definition send_response (code : Z) : M unit :=
  log_request code ;;
  emit (ResponseLine code).

Definition send_header (name value : string) : M unit :=
  emit (HeaderLine name value).

Definition end_headers : M unit := emit EndHeaders.

Definition wfile_write (p : payload) : M unit := emit (Body p).

Definition send_error (code : Z) (message : text) : M unit :=
  log_error code message ;;
  log_request code ;;
  emit (ErrorResponse code message).

(** [int(self.headers.get('Content-Length', 0))] *)
Definition content_length_of (hs : list (string * string)) : Result Z :=
  match message_lookup "Content-Length" hs with
  | Some v => py_int v
  | None => Ok 0
  end.

(** The dict of forwarding headers built by [do_POST]. *)
Definition forwarding_headers (hs : list (string * string)) : dict :=
  [ ("X-Source-IP", message_get hs "X-Source-IP" "");
    ("X-Destination-IP", message_get hs "X-Destination-IP" "");
    ("X-Destination-Port", message_get hs "X-Destination-Port" "");
    ("X-Protocol", message_get hs "X-Protocol" "");
    ("X-Timestamp", message_get hs "X-Timestamp" "");
    ("X-MQTT-Topic", message_get hs "X-MQTT-Topic" "") ].

Definition do_GET (self : Request) : M unit :=
  if (path self =? "/")%string || (path self =? "/index.html")%string then
    send_response 200 ;;
    send_header "Content-type" "text/html" ;;
    end_headers ;;
    html <- get_html_display ;;
    encoded <- lift (encode_utf8 (markup html)) ;;
    wfile_write (HtmlBody encoded)
  else if (path self =? "/stats")%string then
    send_response 200 ;;
    send_header "Content-type" "application/json" ;;
    end_headers ;;
    s <- get_store ;;
    let stats :=
      {| stats_total_received := total_received s;
         stats_error_count := error_count s;
         stats_last_updated := last_updated s;
         stats_has_data :=
           match latest_data s with Some _ => true | None => false end |} in
    wfile_write (StatsBody stats)
  else
    send_error 404 (u "Not Found").

Definition do_POST (self : Request) : M unit :=
  if (path self =? "/")%string || (path self =? "/sensor-data")%string then
    content_length <- lift (content_length_of (headers self)) ;;
    if content_length =? 0 then
      send_error 400 (u "Empty request body") ;;
      increment_errors
    else
      try_except
        (post_data <- rfile_read content_length ;;
         decoded <- lift (decode_utf8 post_data) ;;
         data <- lift (json_loads decoded) ;;
         let headers := forwarding_headers (headers self) in
         add_reading data headers ;;
         mac <- lift (py_get data (u "mac") (JStr (u "unknown"))) ;;
         source <- lift (dict_getitem headers "X-Source-IP") ;;
         log_message (u "Received sensor data from MAC: " ++ format_value mac
                      ++ u " (Source: " ++ u source ++ u ")")%list ;;
         send_response 200 ;;
         send_header "Content-type" "application/json" ;;
         end_headers ;;
         received_at <- now ;;
         wfile_write (ReceivedBody received_at))
        (fun e =>
           if is_JSONDecodeError e then
             send_error 400 (u "Invalid JSON: " ++ exc_str e)%list ;;
             increment_errors ;;
             log_message (u "JSON parse error: " ++ exc_str e)%list
           else
             send_error 500 (u "Internal server error: " ++ exc_str e)%list ;;
             increment_errors ;;
             log_message (u "Error processing request: " ++ exc_str e)%list)
  else
    send_error 404 (u "Not Found").

(** One request on a fresh connection: the library calls the [do_] method
    named by the request line. *)
Definition connect (r : Request) (w : World) : World :=
  mkWorld (data_store w) (now_calls w) (stderr w) (body_stream r) [].

Definition handle_one_request (r : Request) (w : World) : Result unit * World :=
  match command r with
  | GET => do_GET r (connect r w)
  | POST => do_POST r (connect r w)
  end.

(** The server loop: an exception that escapes a handler is reported by
    [socketserver] and the next request is served. *)
Fixpoint serve (rs : list Request) (w : World) : World :=
  match rs with
  | [] => w
  | r :: rest => serve rest (snd (handle_one_request r w))
  end.

End Server.

(** ** What a request amounts to, read off the request itself

    These definitions give names to what the properties below speak about:
    the routes, the body the handler reads, whether it parses, and the
    course a POST takes. *)

Section Outcomes.

Context {P : Platform}.

Definition dashboard_route (p : string) : Prop := p = "/" \/ p = "/index.html".
Definition stats_route (p : string) : Prop := p = "/stats".
Definition data_route (p : string) : Prop := p = "/" \/ p = "/sensor-data".

Definition is_data_route (p : string) : bool :=
  ((p =? "/") || (p =? "/sensor-data"))%string.

(** The bytes [rfile.read(size)] returns on this request. *)
Definition body_of (r : Request) (size : Z) : Result (list byte) :=
  match read_failure size with
  | Some e => Raise e
  | None =>
      Ok (firstn (if size =? -1 then List.length (body_stream r) else Z.to_nat size)
                 (body_stream r))
  end.

(** [json.loads(post_data.decode('utf-8'))] *)
Definition parse_json (post_data : list byte) : Result json :=
  match decode_utf8 post_data with
  | Ok decoded => json_loads decoded
  | Raise e => Raise e
  end.

(** The line [do_POST] logs once the reading is stored. *)
Definition receipt_line (data : json) (hs : list (string * string)) : Result text :=
  match py_get data (u "mac") (JStr (u "unknown")) with
  | Ok mac =>
      match dict_getitem (forwarding_headers hs) "X-Source-IP" with
      | Ok source =>
          percent_no_args (u "Received sensor data from MAC: " ++ format_value mac
                           ++ u " (Source: " ++ u source ++ u ")")%list
      | Raise e => Raise e
      end
  | Raise e => Raise e
  end.

(** The course of a POST. *)
Inductive post_outcome :=
| NotRouted                                   (* no such route *)
| BadLength (e : exception)                   (* [int(...)] raised, outside the [try] *)
| EmptyBody                                   (* content length 0 *)
| Rejected (e : exception)                    (* reading, decoding or parsing raised *)
| Stored (data : json) (late : option exception).
                                              (* [add_reading] ran; [late] was raised after it *)

Definition classify_post (r : Request) : post_outcome :=
  if is_data_route (path r) then
    match content_length_of (headers r) with
    | Raise e => BadLength e
    | Ok n =>
        if n =? 0 then EmptyBody
        else match body_of r n with
             | Raise e => Rejected e
             | Ok post_data =>
                 match parse_json post_data with
                 | Raise e => Rejected e
                 | Ok data =>
                     Stored data
                       match receipt_line data (headers r) with
                       | Ok _ => None
                       | Raise e => Some e
                       end
                 end
             end
    end
  else NotRouted.

(** A POST is accepted with payload [data] when the handler gets as far as
    storing [data]. *)
Definition accepted (r : Request) (data : json) : Prop :=
  command r = POST /\ data_route (path r) /\
  exists n post_data,
    content_length_of (headers r) = Ok n /\ n <> 0 /\
    body_of r n = Ok post_data /\ parse_json post_data = Ok data.

(** The reading [add_reading] builds from [data] and the request headers
    [hs] when called from [do_POST]. *)
Definition reading_of (data : json) (hs : list (string * string)) : Reading :=
  {| sensor_data := data;
     metadata :=
       [ ("source_ip", message_get hs "X-Source-IP" "");
         ("destination_ip", message_get hs "X-Destination-IP" "");
         ("destination_port", message_get hs "X-Destination-Port" "");
         ("protocol", message_get hs "X-Protocol" "");
         ("timestamp", message_get hs "X-Timestamp" "");
         ("mqtt_topic", message_get hs "X-MQTT-Topic" "") ] |}.

(** Metadata field and the header it is taken from. *)
Definition forwarding_table : list (string * string) :=
  [ ("source_ip", "X-Source-IP");
    ("destination_ip", "X-Destination-IP");
    ("destination_port", "X-Destination-Port");
    ("protocol", "X-Protocol");
    ("timestamp", "X-Timestamp");
    ("mqtt_topic", "X-MQTT-Topic") ].

(** The two updates of the store, as functions on the record. *)
Definition with_reading (rd : Reading) (t : datetime) (s : SensorDataStore)
  : SensorDataStore :=
  mkStore (Some rd) (Some t) (total_received s + 1)%N (error_count s).

Definition with_error (s : SensorDataStore) : SensorDataStore :=
  mkStore (latest_data s) (last_updated s) (total_received s) (error_count s + 1)%N.

(** The store after a POST that takes course [o], when the clock showed [t]
    on entry. *)
Definition store_after (o : post_outcome) (hs : list (string * string))
    (t : datetime) (s : SensorDataStore) : SensorDataStore :=
  match o with
  | NotRouted | BadLength _ => s
  | EmptyBody | Rejected _ => with_error s
  | Stored data None => with_reading (reading_of data hs) t s
  | Stored data (Some _) => with_error (with_reading (reading_of data hs) t s)
  end.

(** The answer to an exception caught in [do_POST]. *)
Definition error_answer (e : exception) : sent :=
  if is_JSONDecodeError e
  then ErrorResponse 400 (u "Invalid JSON: " ++ exc_str e)%list
  else ErrorResponse 500 (u "Internal server error: " ++ exc_str e)%list.

(** The status code of a response, if one was sent. *)
Definition status_code (out : list sent) : option Z :=
  match out with
  | ResponseLine code :: _ => Some code
  | ErrorResponse code _ :: _ => Some code
  | _ => None
  end.

(** The stats reported by a response, if it carries any. *)
Fixpoint stats_body (out : list sent) : option Stats :=
  match out with
  | [] => None
  | Body (StatsBody st) :: _ => Some st
  | _ :: rest => stats_body rest
  end.

(** The store invariant: the reading and its time stamp are there together,
    and they are missing exactly as long as nothing was received. *)
Definition store_inv (s : SensorDataStore) : Prop :=
  (latest_data s = None <-> last_updated s = None) /\
  ((latest_data s = None /\ last_updated s = None) <-> total_received s = 0%N).

(** The server before its first request. *)
Definition init_world : World :=
  {| data_store := init_store; now_calls := 0; stderr := [];
     rfile := []; wfile := [] |}.

(** Counting the requests of a sequence by the course they take. *)
Definition stores_reading (r : Request) : bool :=
  match command r, classify_post r with
  | POST, Stored _ _ => true
  | _, _ => false
  end.

Definition counts_error (r : Request) : bool :=
  match command r, classify_post r with
  | POST, (EmptyBody | Rejected _ | Stored _ (Some _)) => true
  | _, _ => false
  end.

(** A POST fails when the handler answers it with an error of its own
    (empty body, malformed JSON, exception caught) or when an exception
    escapes the handler. *)
Definition post_failed (r : Request) : bool :=
  match command r, classify_post r with
  | POST, (EmptyBody | Rejected _ | Stored _ (Some _) | BadLength _) => true
  | _, _ => false
  end.

Definition count (f : Request -> bool) (rs : list Request) : N :=
  N.of_nat (List.length (filter f rs)).

(** A POST to a data route whose body, as the handler reads it, is not
    empty and is not valid JSON. *)
Definition malformed (r : Request) : Prop :=
  command r = POST /\ data_route (path r) /\
  exists n post_data,
    content_length_of (headers r) = Ok n /\ n <> 0 /\
    body_of r n = Ok post_data /\ post_data <> [] /\
    forall data, parse_json post_data <> Ok data.

(** A POST to a data route that announces no body: the header is missing,
    or its value is an integer literal for 0. *)
Definition announces_no_body (r : Request) : Prop :=
  command r = POST /\ data_route (path r) /\
  (message_lookup "Content-Length" (headers r) = None \/
   exists v, message_lookup "Content-Length" (headers r) = Some v /\
             py_int v = Ok 0).

(** What a request leaves behind, and what it is answered with. *)
Definition store_left (r : Request) (w : World) : SensorDataStore :=
  data_store (snd (handle_one_request r w)).

Definition answer (r : Request) (w : World) : list sent :=
  wfile (snd (handle_one_request r w)).

(** A computation that leaves one component of the world as it was. *)
Definition keeps {X A} (component : World -> X) (m : M A) : Prop :=
  forall w, component (snd (m w)) = component w.

End Outcomes.

(** ** More names for what the code does *)

Section Reading.

Context {P : Platform}.

(** [isinstance(v, dict)] *)
Definition is_dict (v : json) : bool :=
  match v with JDict _ => true | _ => false end.

(** The values Python compares with an integer: [int], [bool], [float]. *)
Definition is_number (v : json) : bool :=
  match v with JInt _ | JBool _ | JFloat _ => true | _ => false end.

(** The bound [_format_sensor_value] compares the value of a sensor with, for
    the sensors that have one. *)
Definition threshold (name : string) : option Z :=
  if (name =? "CO2")%string then Some 1000
  else if ((name =? "PM2.5") || (name =? "PM10"))%string then Some 35
  else None.



(** How many bytes [rfile.read(size)] takes from the request. *)
Definition bytes_read (r : Request) (size : Z) : nat :=
  if size =? -1 then List.length (body_stream r) else Z.to_nat size.

(** The three things sent before the body of a page. *)
Definition page_head : list sent :=
  [ResponseLine 200; HeaderLine "Content-type" "text/html"; EndHeaders].

End Reading.

(** ** A concrete platform, for running the model

    [json.loads] as it behaves on the four bodies used below: the objects
    [{}] and [{"mac": "AA"}], the list [[1]], and the single letter [x],
    which is not JSON.  [format_value] and [percent_no_args] are exact on
    the values these bodies lead to; no property below looks at the text
    [json_dumps] and [markup] return.  The machine has room for a [bytes]
    object of less than 2^33 bytes. *)

(** The body [{"mac": "AA"}], whose quotes are written as code points. *)
Definition mac_body : text :=
  [123; 34; 109; 97; 99; 34; 58; 32; 34; 65; 65; 34; 125]%N.

Definition sample_payload : json := JDict [(u "mac", JStr (u "AA"))].

Definition sample_loads (t : text) : Result json :=
  if text_eqb t (u "{}") then Ok (JDict [])
  else if text_eqb t (u "[1]") then Ok (JList [JInt 1])
  else if text_eqb t mac_body then Ok sample_payload
  else Raise (mkExc JSONDecodeError (u "Expecting value: line 1 column 1 (char 0)")).

Definition sample_format (v : json) : text :=
  match v with
  | JStr s => s
  | JNull => u "None"
  | JBool true => u "True"
  | JBool false => u "False"
  | _ => []
  end.

(** Exact on a message without a percent sign (code point 37). *)
Definition sample_percent (t : text) : Result text :=
  if existsb (N.eqb 37) t
  then Raise (mkExc TypeError (u "not enough arguments for format string"))
  else Ok t.

#[local] Instance sample_platform : Platform := {|
  clock := fun n => 1700000000 + Z.of_nat n;
  json_loads := sample_loads;
  format_value := sample_format;
  percent_no_args := sample_percent;
  json_dumps := fun _ => u "{}";
  markup := fun h =>
    match h with
    | NoDataHtml _ _ _ => u "<html>Waiting for sensor data...</html>"
    | DataHtml _ => u "<html>Receiving data</html>"
    end;
  out_of_memory := fun size => 2 ^ 33 <=? size
|}.

Definition post (p : string) (hs : list (string * string)) (body : string)
  : Request :=
  {| command := POST; path := p; headers := hs;
     body_stream := list_byte_of_string body |}.

Definition get (p : string) : Request :=
  {| command := GET; path := p; headers := []; body_stream := [] |}.

(** A well-formed reading with all six forwarding headers. *)
Definition sample_post : Request :=
  {| command := POST; path := "/sensor-data";
     headers := [ ("Content-Length", "13");
                  ("X-Source-IP", "192.168.1.50");
                  ("X-Destination-IP", "10.0.0.1");
                  ("X-Destination-Port", "1883");
                  ("X-Protocol", "TCP");
                  ("X-Timestamp", "2024-01-01T00:00:00Z");
                  ("X-MQTT-Topic", "qingping/up") ];
     body_stream := map (fun n => match Byte.of_N n with Some b => b | None => x00 end)
                        mac_body |}.

(** A body that is not UTF-8: the single byte 0xFF. *)
Definition not_utf8_post : Request :=
  {| command := POST; path := "/sensor-data";
     headers := [ ("Content-Length", "1") ];
     body_stream := [xff] |}.

(** A POST whose [Content-Length] is not a number. *)
Definition bad_length_post : Request :=
  post "/sensor-data" [ ("Content-Length", "abc") ] "{}".

(** A POST whose body is JSON, but not an object. *)
Definition list_post : Request :=
  post "/sensor-data" [ ("Content-Length", "3") ] "[1]".

(** A POST without forwarding headers. *)
Definition bare_post : Request :=
  post "/" [ ("content-length", "2") ] "{}".

(** A POST without a body. *)
Definition empty_post : Request :=
  post "/sensor-data" [ ("Content-Length", "0") ] "".

(** A POST whose body is text but not JSON. *)
Definition garbage_post : Request :=
  post "/sensor-data" [ ("Content-Length", "1") ] "x".

(** A server that has already taken a reading and counted an error. *)
Definition busy_world : World := serve [list_post] init_world.

(** A sensor object above the CO2 bound, and one whose value is text. *)
Definition co2_high : json := JDict [(u "value", JInt 1200); (u "status", JInt 2)].

Definition co2_text : json := JDict [(u "value", JStr (u "n/a"))].


Definition co2_card : SensorCard :=
  {| card_class := "sensor-card warning"; card_name := "CO2";
     card_value := JInt 1200; card_unit := u "ppm";
     card_status := Some (JInt 2) |}.


(** A POST with a negative [Content-Length]. *)
Definition negative_length_post : Request :=
  post "/sensor-data" [ ("Content-Length", "-5") ] "{}".


(** A POST that announces 2^63 bytes, which is no size [rfile.read] takes. *)
Definition oversized_post : Request :=
  post "/sensor-data" [ ("Content-Length", "9223372036854775808") ] "{}".

(** A POST that announces 10^15 bytes, more than the machine has room
    for. *)
Definition unallocatable_post : Request :=
  post "/sensor-data" [ ("Content-Length", "1000000000000000") ] "{}".

(** A POST whose [Content-Length] is 0 written with 4301 digits. *)
Definition padded_length_post : Request :=
  post "/sensor-data"
       [ ("Content-Length", string_of_list_ascii (repeat "0"%char 4301)) ] "".

Ltac run :=
  cbv beta iota zeta delta
    [add_reading increment_errors log_message send_response send_error
     send_header end_headers wfile_write log_request log_error now
     get_store put_store write_stderr emit rfile_read bind lift ret try_except
     connect fst snd data_store now_calls stderr rfile wfile latest_data
     last_updated total_received error_count];
  cbn [app].

(** * Properties *)

Section Properties.

Context {P : Platform}.

Local Open Scope monad_scope.

(** ** Routes *)

Lemma is_data_route_iff p : is_data_route p = true <-> data_route p.
Proof.
  unfold is_data_route, data_route.
  rewrite orb_true_iff, !String.eqb_eq. tauto.
Qed.

Lemma data_route_true p : data_route p -> is_data_route p = true.
Proof. apply is_data_route_iff. Qed.

Lemma data_route_false p : ~ data_route p -> is_data_route p = false.
Proof.
  intro H. destruct (is_data_route p) eqn:E; [|reflexivity].
  apply is_data_route_iff in E. contradiction.
Qed.

(** ** Computations that leave a component of the world alone *)

Section Frame.

Context {X : Type} (component : World -> X).

Lemma keeps_ret {A} (a : A) : keeps component (ret a).
Proof. intro w. reflexivity. Qed.

Lemma keeps_lift {A} (x : Result A) : keeps component (lift x).
Proof. intro w. reflexivity. Qed.

Lemma keeps_get_store : keeps component get_store.
Proof. intro w. reflexivity. Qed.

Lemma keeps_bind {A B} (m : M A) (k : A -> M B) :
  keeps component m -> (forall a, keeps component (k a)) ->
  keeps component (bind m k).
Proof.
  intros Hm Hk w. unfold bind. specialize (Hm w).
  destruct (m w) as [[a|e] w1]; cbn [snd] in *.
  - rewrite Hk. exact Hm.
  - exact Hm.
Qed.

End Frame.

Lemma now_keeps_store : keeps data_store now.
Proof. intro w. reflexivity. Qed.

Lemma now_keeps_wfile : keeps wfile now.
Proof. intro w. reflexivity. Qed.

Lemma emit_keeps_store x : keeps data_store (emit x).
Proof. intro w. reflexivity. Qed.

Lemma write_stderr_keeps_store t l : keeps data_store (write_stderr t l).
Proof. intro w. reflexivity. Qed.

Lemma rfile_read_keeps_store n : keeps data_store (rfile_read n).
Proof. intro w. unfold rfile_read. destruct (read_failure n); reflexivity. Qed.

Create HintDb frame discriminated.
#[local] Hint Resolve keeps_ret keeps_lift keeps_get_store now_keeps_store
  now_keeps_wfile emit_keeps_store write_stderr_keeps_store
  rfile_read_keeps_store : frame.

Ltac frame :=
  repeat first
    [ solve [auto with frame]
    | apply keeps_bind; [|intro] ].

Lemma log_message_keeps_store fmt : keeps data_store (log_message fmt).
Proof. unfold log_message. frame. Qed.

Lemma send_response_keeps_store code : keeps data_store (send_response code).
Proof. unfold send_response, log_request. frame. Qed.

Lemma send_header_keeps_store k v : keeps data_store (send_header k v).
Proof. unfold send_header. frame. Qed.

Lemma end_headers_keeps_store : keeps data_store end_headers.
Proof. unfold end_headers. frame. Qed.

Lemma wfile_write_keeps_store p : keeps data_store (wfile_write p).
Proof. unfold wfile_write. frame. Qed.

Lemma send_error_keeps_store code message :
  keeps data_store (send_error code message).
Proof. unfold send_error, log_error, log_request. frame. Qed.

#[local] Hint Resolve log_message_keeps_store send_response_keeps_store
  send_header_keeps_store end_headers_keeps_store wfile_write_keeps_store
  send_error_keeps_store : frame.

(** Rendering a page reads the store and the clock; it leaves alone whatever
    the clock leaves alone. *)
Section Rendering.

Context {X : Type} (component : World -> X).
Hypothesis now_keeps : keeps component now.

Lemma _get_no_data_html_keeps : keeps component _get_no_data_html.
Proof.
  unfold _get_no_data_html.
  repeat (apply keeps_bind; [|intro]);
    auto using keeps_get_store, keeps_ret.
Qed.

Lemma _format_sensor_value_keeps name sensor_obj unit :
  keeps component (_format_sensor_value name sensor_obj unit).
Proof.
  unfold _format_sensor_value.
  destruct (negb (truthy sensor_obj)); [apply keeps_ret|].
  apply keeps_bind; [apply keeps_lift|]. intro has_value.
  destruct (negb has_value); [apply keeps_ret|].
  apply keeps_bind; [apply keeps_lift|]. intro value.
  apply keeps_bind; [apply keeps_lift|]. intro status.
  apply keeps_bind; [|intro; apply keeps_ret].
  destruct (name =? "CO2")%string; [apply keeps_lift|].
  destruct ((name =? "PM2.5") || (name =? "PM10"))%string;
    [apply keeps_lift | apply keeps_ret].
Qed.

Lemma sensor_cards_keeps latest_reading rows :
  keeps component (sensor_cards latest_reading rows).
Proof.
  induction rows as [|[[name key] unit] rest IH]; cbn [sensor_cards].
  - apply keeps_ret.
  - apply keeps_bind; [apply keeps_lift|]. intro sensor_obj.
    apply keeps_bind; [apply _format_sensor_value_keeps|]. intro card.
    apply keeps_bind; [exact IH|]. intro cards. apply keeps_ret.
Qed.

Lemma _get_data_html_keeps : keeps component _get_data_html.
Proof.
  unfold _get_data_html.
  apply keeps_bind; [apply keeps_get_store|]. intro s.
  apply keeps_bind; [apply keeps_lift|]. intro latest.
  apply keeps_bind; [apply keeps_lift|]. intro has_sensors.
  apply keeps_bind.
  - destruct has_sensors; [|apply keeps_ret].
    apply keeps_bind; [apply keeps_lift|].
    intros [| | | | |[|latest_reading l]|]; try apply keeps_ret.
    apply keeps_bind; [apply sensor_cards_keeps|]. intro. apply keeps_ret.
  - intro sensor_data_html.
    apply keeps_bind; [apply keeps_get_store|]. intro s'.
    repeat (apply keeps_bind; [apply keeps_lift|intro]).
    apply keeps_ret.
Qed.

Lemma get_html_display_keeps : keeps component get_html_display.
Proof.
  unfold get_html_display. apply keeps_bind; [apply keeps_get_store|].
  intro s. destruct (latest_data s).
  - apply _get_data_html_keeps.
  - apply _get_no_data_html_keeps.
Qed.

End Rendering.

Lemma get_html_display_keeps_store : keeps data_store get_html_display.
Proof. apply get_html_display_keeps, now_keeps_store. Qed.

Lemma get_html_display_keeps_wfile : keeps wfile get_html_display.
Proof. apply get_html_display_keeps, now_keeps_wfile. Qed.

#[local] Hint Resolve get_html_display_keeps_store : frame.

Lemma keeps_do_GET self : keeps data_store (do_GET self).
Proof.
  unfold do_GET.
  destruct ((path self =? "/")%string || (path self =? "/index.html")%string).
  - frame.
  - destruct (path self =? "/stats")%string; frame.
Qed.

(** ** The store operations *)

Lemma add_reading_run data hs w :
  add_reading data (forwarding_headers hs) w =
  (Ok tt,
   mkWorld (with_reading (reading_of data hs) (clock (now_calls w)) (data_store w))
           (S (now_calls w)) (stderr w) (rfile w) (wfile w)).
Proof. destruct w as [[ld lu tr ec] nc err rf wf]. reflexivity. Qed.

Lemma increment_errors_run w :
  increment_errors w =
  (Ok tt,
   mkWorld (with_error (data_store w)) (now_calls w) (stderr w) (rfile w) (wfile w)).
Proof. destruct w as [[ld lu tr ec] nc err rf wf]. reflexivity. Qed.

(** ** The course of a POST *)

(** The handler follows [classify_post]: the store it leaves and the answer
    it gives are those of the course the request takes. *)
Lemma do_POST_course r w :
  let run := do_POST r (connect r w) in
  data_store (snd run) =
    store_after (classify_post r) (headers r) (clock (now_calls w)) (data_store w)
  /\ match classify_post r with
     | NotRouted =>
         fst run = Ok tt /\ wfile (snd run) = [ErrorResponse 404 (u "Not Found")]
     | BadLength e => run = (Raise e, connect r w)
     | EmptyBody =>
         run = (Ok tt,
                mkWorld (with_error (data_store w)) (S (S (now_calls w)))
                  ((stderr w
                    ++ [(clock (now_calls w),
                         LogError 400 (u "Empty request body"))])
                    ++ [(clock (S (now_calls w)), LogRequest 400)])
                  (body_stream r)
                  [ErrorResponse 400 (u "Empty request body")])
     | Rejected e => wfile (snd run) = [error_answer e]
     | Stored _ (Some e) => wfile (snd run) = [error_answer e]
     | Stored _ None => fst run = Ok tt /\ status_code (wfile (snd run)) = Some 200
     end.
Proof.
  destruct w as [[ld lu tr ec] nc err rf wf].
  unfold do_POST, classify_post, is_data_route.
  destruct ((path r =? "/")%string || (path r =? "/sensor-data")%string).
  2:{ run. repeat split. }
  destruct (content_length_of (headers r)) as [n|e]; run; [|repeat split].
  destruct (n =? 0); run; [repeat split|].
  unfold body_of, error_answer. destruct (read_failure n) as [e|]; run.
  { destruct (is_JSONDecodeError e); run;
    destruct (percent_no_args _); repeat split. }
  unfold parse_json.
  destruct (decode_utf8 _) as [t|e]; run.
  2:{ destruct (is_JSONDecodeError e); run;
      destruct (percent_no_args _); repeat split. }
  destruct (json_loads t) as [data|e]; run.
  2:{ destruct (is_JSONDecodeError e); run;
      destruct (percent_no_args _); repeat split. }
  unfold receipt_line.
  destruct (py_get data _ _) as [mac|e]; run.
  2:{ destruct (is_JSONDecodeError e); run;
      destruct (percent_no_args _); repeat split. }
  destruct (dict_getitem _ _) as [source|e]; run.
  2:{ destruct (is_JSONDecodeError e); run;
      destruct (percent_no_args _); repeat split. }
  destruct (percent_no_args _) as [line|e]; run.
  2:{ destruct (is_JSONDecodeError e); run;
      destruct (percent_no_args _); repeat split. }
  repeat split.
Qed.

Lemma handle_post r w :
  command r = POST -> handle_one_request r w = do_POST r (connect r w).
Proof. unfold handle_one_request. intros ->. reflexivity. Qed.

Lemma handle_get r w :
  command r = GET -> handle_one_request r w = do_GET r (connect r w).
Proof. unfold handle_one_request. intros ->. reflexivity. Qed.

Lemma post_store r w :
  command r = POST ->
  store_left r w =
  store_after (classify_post r) (headers r) (clock (now_calls w)) (data_store w).
Proof.
  intro Hc. unfold store_left. rewrite (handle_post _ _ Hc).
  apply (do_POST_course r w).
Qed.

Lemma get_store_left r w : command r = GET -> store_left r w = data_store w.
Proof.
  intro Hc. unfold store_left. rewrite (handle_get _ _ Hc).
  apply (keeps_do_GET r (connect r w)).
Qed.

Lemma accepted_course r data :
  accepted r data -> exists late, classify_post r = Stored data late.
Proof.
  intros (_ & Hp & n & post_data & Hn & H0 & Hb & Hj).
  unfold classify_post.
  rewrite (data_route_true _ Hp), Hn.
  apply Z.eqb_neq in H0. rewrite H0, Hb, Hj. eauto.
Qed.

Lemma course_accepted r data late :
  command r = POST -> classify_post r = Stored data late -> accepted r data.
Proof.
  intros Hc. unfold classify_post, accepted.
  destruct (is_data_route (path r)) eqn:Hp; [|discriminate].
  destruct (content_length_of (headers r)) as [n|] eqn:Hn; [|discriminate].
  destruct (n =? 0) eqn:H0; [discriminate|].
  destruct (body_of r n) as [post_data|] eqn:Hb; [|discriminate].
  destruct (parse_json post_data) as [d|] eqn:Hj; [|discriminate].
  intros [= <- _].
  split; [exact Hc|]. split; [apply is_data_route_iff, Hp|].
  exists n, post_data. apply Z.eqb_neq in H0. auto.
Qed.

Lemma malformed_course r :
  malformed r ->
  exists n post_data e,
    content_length_of (headers r) = Ok n /\ body_of r n = Ok post_data /\
    post_data <> [] /\ parse_json post_data = Raise e /\
    classify_post r = Rejected e.
Proof.
  intros (_ & Hp & n & post_data & Hn & H0 & Hb & Hne & Hj).
  unfold classify_post.
  rewrite (data_route_true _ Hp), Hn.
  apply Z.eqb_neq in H0. rewrite H0, Hb.
  destruct (parse_json post_data) as [d|e] eqn:E.
  - destruct (Hj d eq_refl).
  - exists n, post_data, e. auto.
Qed.

Lemma stored_after data late hs t s :
  let s' := store_after (Stored data late) hs t s in
  latest_data s' = Some (reading_of data hs) /\
  last_updated s' = Some t /\
  total_received s' = (total_received s + 1)%N.
Proof. destruct late; repeat split. Qed.

(** ** Accepted readings *)

(** C1. A POST to a data route whose body is valid JSON adds exactly one to
    [total_received] and sets [last_updated] to the clock reading taken when
    the reading is added, which is the first one taken for this request. *)
Theorem valid_json_post_received r w data :
  accepted r data ->
  total_received (store_left r w) = (total_received (data_store w) + 1)%N /\
  last_updated (store_left r w) = Some (clock (now_calls w)) /\
  last_updated (store_left r w) =
    last_updated
      (data_store (snd (add_reading data (forwarding_headers (headers r))
                                    (connect r w)))).
Proof.
  intro Hacc. pose proof Hacc as (Hc & _).
  destruct (accepted_course _ _ Hacc) as [late Hk].
  rewrite (post_store _ _ Hc), Hk.
  destruct (stored_after data late (headers r) (clock (now_calls w)) (data_store w))
    as (_ & Hlu & Htr).
  rewrite add_reading_run. cbn [snd data_store connect now_calls].
  repeat split; assumption || reflexivity.
Qed.

(** A POST that is answered with 200 was accepted. *)
Lemma success_accepted r w :
  command r = POST -> status_code (answer r w) = Some 200 ->
  exists data late, classify_post r = Stored data late /\ accepted r data.
Proof.
  intros Hc H200.
  unfold answer in H200. rewrite (handle_post _ _ Hc) in H200.
  pose proof (do_POST_course r w) as [_ Hcourse]. cbv zeta in Hcourse.
  destruct (classify_post r) as [| e | | e | data late] eqn:Hk.
  - destruct Hcourse as [_ Hw]. rewrite Hw in H200. discriminate.
  - rewrite Hcourse in H200. discriminate.
  - rewrite Hcourse in H200. discriminate.
  - rewrite Hcourse in H200. unfold error_answer in H200.
    destruct (is_JSONDecodeError e); discriminate.
  - exists data, late. split; [reflexivity|].
    exact (course_accepted _ _ _ Hc Hk).
Qed.

(** C4. After a POST that is answered with 200 the latest reading is the one
    built from the payload and the headers of that request, whatever the
    server held before: any two worlds end up with the same latest
    reading. *)
Theorem successful_post_replaces_reading r w1 w2 :
  command r = POST ->
  status_code (answer r w1) = Some 200 ->
  latest_data (store_left r w1) = latest_data (store_left r w2) /\
  exists data,
    accepted r data /\
    latest_data (store_left r w1) = Some (reading_of data (headers r)).
Proof.
  intros Hc H200.
  destruct (success_accepted r w1 Hc H200) as (data & late & Hk & Hacc).
  rewrite !(post_store _ _ Hc), Hk.
  destruct (stored_after data late (headers r) (clock (now_calls w1)) (data_store w1))
    as (Hl1 & _).
  destruct (stored_after data late (headers r) (clock (now_calls w2)) (data_store w2))
    as (Hl2 & _).
  split; [congruence|].
  exists data. split; [exact Hacc | exact Hl1].
Qed.

(** ** Rejected bodies *)

(** C2, amended. A POST to a data route whose body is not empty and is not
    valid JSON adds one to [error_count] and leaves [total_received], the
    stored reading and [last_updated] as they were.  It is answered with 400
    when parsing raises [JSONDecodeError], and with 500 when decoding or
    parsing raises anything else. *)
Theorem malformed_post_counted r w :
  malformed r ->
  error_count (store_left r w) = (error_count (data_store w) + 1)%N /\
  total_received (store_left r w) = total_received (data_store w) /\
  latest_data (store_left r w) = latest_data (data_store w) /\
  last_updated (store_left r w) = last_updated (data_store w) /\
  exists n post_data e,
    content_length_of (headers r) = Ok n /\ body_of r n = Ok post_data /\
    parse_json post_data = Raise e /\
    answer r w = [error_answer e] /\
    status_code (answer r w) = Some (if is_JSONDecodeError e then 400 else 500).
Proof.
  intro Hm. pose proof Hm as (Hc & _).
  destruct (malformed_course _ Hm) as (n & post_data & e & Hn & Hb & _ & Hj & Hk).
  rewrite (post_store _ _ Hc), Hk. cbn [store_after with_error error_count
    total_received latest_data last_updated].
  repeat (split; [reflexivity|]).
  exists n, post_data, e.
  assert (Ha : answer r w = [error_answer e]).
  { unfold answer. rewrite (handle_post _ _ Hc).
    pose proof (do_POST_course r w) as [_ Hcourse]. cbv zeta in Hcourse.
    rewrite Hk in Hcourse. exact Hcourse. }
  repeat (split; [assumption|]).
  rewrite Ha. unfold error_answer. destruct (is_JSONDecodeError e); reflexivity.
Qed.

(** ** Requests without a body *)

Lemma no_body_course r : announces_no_body r -> classify_post r = EmptyBody.
Proof.
  intros (_ & Hp & Hlen). unfold classify_post.
  rewrite (data_route_true _ Hp).
  assert (Hn : content_length_of (headers r) = Ok 0).
  { unfold content_length_of.
    destruct Hlen as [-> | (v & -> & Hv)]; [reflexivity | exact Hv]. }
  rewrite Hn. reflexivity.
Qed.

Lemma no_body_run r w :
  announces_no_body r ->
  handle_one_request r w =
  (Ok tt,
   mkWorld (with_error (data_store w)) (S (S (now_calls w)))
     ((stderr w ++ [(clock (now_calls w), LogError 400 (u "Empty request body"))])
      ++ [(clock (S (now_calls w)), LogRequest 400)])
     (body_stream r)
     [ErrorResponse 400 (u "Empty request body")]).
Proof.
  intro Ha. pose proof Ha as (Hc & _).
  rewrite (handle_post _ _ Hc).
  pose proof (do_POST_course r w) as [_ Hcourse]. cbv zeta in Hcourse.
  rewrite (no_body_course _ Ha) in Hcourse. exact Hcourse.
Qed.

(** ** GET requests *)

Lemma dashboard_answer w0 :
  wfile w0 = [] ->
  status_code
    (wfile (snd ((send_response 200 ;;
                  send_header "Content-type" "text/html" ;;
                  end_headers ;;
                  html <- get_html_display ;;
                  encoded <- lift (encode_utf8 (markup html)) ;;
                  wfile_write (HtmlBody encoded)) w0))) = Some 200.
Proof.
  destruct w0 as [s nc err rf wf]. cbn [wfile]. intros ->.
  run.
  match goal with
  | |- context [get_html_display ?w] =>
      pose proof (get_html_display_keeps_wfile w) as Hk;
      destruct (get_html_display w) as [[page|e] w1]
  end; cbn [snd wfile] in Hk; destruct w1 as [s1 nc1 err1 rf1 wf1];
    cbn [wfile] in Hk; subst wf1.
  - destruct (encode_utf8 (markup page)); reflexivity.
  - reflexivity.
Qed.

Lemma do_GET_course r w :
  let run := do_GET r (connect r w) in
  (dashboard_route (path r) -> status_code (wfile (snd run)) = Some 200) /\
  (stats_route (path r) ->
   run = (Ok tt,
          mkWorld (data_store w) (S (now_calls w))
            (stderr w ++ [(clock (now_calls w), LogRequest 200)])
            (body_stream r)
            [ResponseLine 200; HeaderLine "Content-type" "application/json";
             EndHeaders;
             Body (StatsBody
                     {| stats_total_received := total_received (data_store w);
                        stats_error_count := error_count (data_store w);
                        stats_last_updated := last_updated (data_store w);
                        stats_has_data :=
                          match latest_data (data_store w) with
                          | Some _ => true
                          | None => false
                          end |})])) /\
  (~ dashboard_route (path r) -> ~ stats_route (path r) ->
   fst run = Ok tt /\ wfile (snd run) = [ErrorResponse 404 (u "Not Found")]).
Proof.
  unfold do_GET, dashboard_route, stats_route.
  destruct (String.eqb_spec (path r) "/") as [E1|E1];
    [|destruct (String.eqb_spec (path r) "/index.html") as [E2|E2]];
    cbn [orb].
  - split; [|split]; [|rewrite E1; discriminate|tauto].
    intros _. apply dashboard_answer. reflexivity.
  - split; [|split]; [|rewrite E2; discriminate|tauto].
    intros _. apply dashboard_answer. reflexivity.
  - destruct (String.eqb_spec (path r) "/stats") as [E3|E3].
    + split; [tauto|]. split; [|tauto]. intros _. reflexivity.
    + split; [tauto|]. split; [tauto|]. intros _ _. run. split; reflexivity.
Qed.

(** C7. A GET, whatever its path, leaves the store as it found it: the
    latest reading, the time of the last update and both counters keep
    their values. *)
Theorem get_leaves_store_unchanged (self : Request) (w : World) :
  data_store (snd (do_GET self w)) = data_store w /\
  latest_data (data_store (snd (do_GET self w))) = latest_data (data_store w) /\
  last_updated (data_store (snd (do_GET self w))) = last_updated (data_store w) /\
  total_received (data_store (snd (do_GET self w))) = total_received (data_store w) /\
  error_count (data_store (snd (do_GET self w))) = error_count (data_store w).
Proof.
  rewrite (keeps_do_GET self w). repeat split.
Qed.

(** ** Dispatch *)

(** C5, amended. GET knows the routes [/], [/index.html] and [/stats]; POST
    knows [/] and [/sensor-data].  A request to a route its method knows is
    never answered with 404; a request to any other path is answered with
    404 Not Found and leaves the store unchanged. *)
Theorem dispatch_by_route r w :
  (command r = GET ->
   (dashboard_route (path r) \/ stats_route (path r) ->
    status_code (answer r w) = Some 200) /\
   (~ dashboard_route (path r) -> ~ stats_route (path r) ->
    answer r w = [ErrorResponse 404 (u "Not Found")] /\
    store_left r w = data_store w)) /\
  (command r = POST ->
   (data_route (path r) -> status_code (answer r w) <> Some 404) /\
   (~ data_route (path r) ->
    answer r w = [ErrorResponse 404 (u "Not Found")] /\
    store_left r w = data_store w)).
Proof.
  split; intro Hc.
  - pose proof (do_GET_course r w) as (Hdash & Hstats & Hother). cbv zeta in *.
    unfold answer. rewrite (handle_get _ _ Hc). split.
    + intros [Hd | Hs]; [exact (Hdash Hd) | rewrite (Hstats Hs); reflexivity].
    + intros Hnd Hns. split; [apply (Hother Hnd Hns)|].
      exact (get_store_left _ w Hc).
  - pose proof (do_POST_course r w) as [Hstore Hcourse]. cbv zeta in *.
    unfold answer, store_left. rewrite (handle_post _ _ Hc). split.
    + intro Hp. apply data_route_true in Hp.
      destruct (classify_post r) as [| e | | e | data [e|]] eqn:Hk.
      * unfold classify_post in Hk. rewrite Hp in Hk.
        destruct (content_length_of (headers r)) as [n|]; [|discriminate].
        destruct (n =? 0); [discriminate|].
        destruct (body_of r n) as [b|]; [|discriminate].
        destruct (parse_json b); discriminate.
      * rewrite Hcourse. discriminate.
      * rewrite Hcourse. discriminate.
      * rewrite Hcourse. unfold error_answer.
        destruct (is_JSONDecodeError e); discriminate.
      * rewrite Hcourse. unfold error_answer.
        destruct (is_JSONDecodeError e); discriminate.
      * destruct Hcourse as [_ ->]. discriminate.
    + intro Hp. apply data_route_false in Hp.
      unfold classify_post in Hstore, Hcourse. rewrite Hp in Hstore, Hcourse.
      split; [apply Hcourse | exact Hstore].
Qed.

(** ** The stored metadata *)

Lemma accepted_latest r w data :
  accepted r data ->
  latest_data (store_left r w) = Some (reading_of data (headers r)).
Proof.
  intro Hacc. pose proof Hacc as (Hc & _).
  destruct (accepted_course _ _ Hacc) as [late Hk].
  rewrite (post_store _ _ Hc), Hk.
  apply stored_after.
Qed.

(** Every key [add_reading] asks for is in the dict [do_POST] hands over, so
    the default is never used. *)
Lemma forwarding_headers_complete hs field name default :
  In (field, name) forwarding_table ->
  dict_get (forwarding_headers hs) name default = message_get hs name "".
Proof.
  unfold forwarding_table. cbn [In].
  intros [H|[H|[H|[H|[H|[H|[]]]]]]]; injection H as <- <-; reflexivity.
Qed.

Lemma reading_field data hs field name :
  In (field, name) forwarding_table ->
  dict_lookup field (metadata (reading_of data hs)) = Some (message_get hs name "").
Proof.
  unfold forwarding_table. cbn [In].
  intros [H|[H|[H|[H|[H|[H|[]]]]]]]; injection H as <- <-; reflexivity.
Qed.

(** C6. After an accepted POST the store holds the parsed payload together
    with a metadata dict of exactly six fields, in the order source IP,
    destination IP, destination port, protocol, timestamp, MQTT topic; each
    field holds the value of its X- header of that request. *)
Theorem stored_metadata_from_headers r w data :
  accepted r data ->
  exists rd,
    latest_data (store_left r w) = Some rd /\
    sensor_data rd = data /\
    map fst (metadata rd) = map fst forwarding_table /\
    forall field name,
      In (field, name) forwarding_table ->
      dict_lookup field (metadata rd) = Some (message_get (headers r) name "") /\
      forall v,
        message_lookup name (headers r) = Some v ->
        dict_lookup field (metadata rd) = Some v.
Proof.
  intro Hacc. exists (reading_of data (headers r)).
  split; [exact (accepted_latest r w data Hacc)|].
  split; [reflexivity|]. split; [reflexivity|].
  intros field name Hin.
  pose proof (reading_field data (headers r) field name Hin) as Hf.
  split; [exact Hf|].
  intros v Hv. rewrite Hf. unfold message_get. rewrite Hv. reflexivity.
Qed.

(** C10. When a forwarding header is absent from an accepted POST, its
    metadata field is stored as the empty string.  The defaults written in
    [add_reading] never apply: for each of the six keys the dict built by
    [do_POST] has an entry, so [get] returns that entry whatever the
    default. *)
Theorem absent_header_stored_empty r w data field name :
  accepted r data ->
  In (field, name) forwarding_table ->
  message_lookup name (headers r) = None ->
  (exists rd,
     latest_data (store_left r w) = Some rd /\
     dict_lookup field (metadata rd) = Some "") /\
  (forall default,
     dict_get (forwarding_headers (headers r)) name default = "") /\
  (forall hs name' field' default,
     In (field', name') forwarding_table ->
     dict_get (forwarding_headers hs) name' default = message_get hs name' "").
Proof.
  intros Hacc Hin Habsent.
  assert (Hget : message_get (headers r) name "" = "").
  { unfold message_get. rewrite Habsent. reflexivity. }
  split; [|split].
  - exists (reading_of data (headers r)).
    split; [exact (accepted_latest r w data Hacc)|].
    rewrite (reading_field data (headers r) field name Hin), Hget. reflexivity.
  - intro default.
    rewrite (forwarding_headers_complete (headers r) field name default Hin).
    exact Hget.
  - intros hs name' field' default Hin'.
    exact (forwarding_headers_complete hs field' name' default Hin').
Qed.

(** ** The store invariant *)

Lemma store_inv_init : store_inv init_store.
Proof. unfold store_inv, init_store. cbn. tauto. Qed.

Lemma store_inv_with_error s : store_inv s -> store_inv (with_error s).
Proof. unfold store_inv, with_error. cbn. tauto. Qed.

Lemma store_inv_received ld t n e :
  store_inv (mkStore (Some ld) (Some t) (n + 1)%N e).
Proof.
  unfold store_inv. cbn [latest_data last_updated total_received].
  split; split; try discriminate.
  - intros [H _]. discriminate.
  - intro H. lia.
Qed.

Lemma store_inv_with_reading rd t s : store_inv (with_reading rd t s).
Proof. apply store_inv_received. Qed.

Lemma store_inv_after o hs t s :
  store_inv s -> store_inv (store_after o hs t s).
Proof.
  intro H. destruct o as [| e | | e | data [e|]]; cbn [store_after];
    auto using store_inv_with_error, store_inv_with_reading.
Qed.

Lemma store_inv_add_reading data hs w :
  store_inv (data_store (snd (add_reading data hs w))).
Proof.
  destruct w as [[ld lu tr ec] nc err rf wf]. apply store_inv_received.
Qed.

Lemma store_inv_handled r w :
  store_inv (data_store w) -> store_inv (store_left r w).
Proof.
  intro H. destruct (command r) eqn:Hc.
  - rewrite (get_store_left _ _ Hc). exact H.
  - rewrite (post_store _ _ Hc). apply store_inv_after, H.
Qed.

Lemma store_inv_served rs w :
  store_inv (data_store w) -> store_inv (data_store (serve rs w)).
Proof.
  revert w. induction rs as [|r rs IH]; intros w H; cbn [serve].
  - exact H.
  - apply IH. exact (store_inv_handled r w H).
Qed.

Lemma stats_answer r w :
  command r = GET -> path r = "/stats" ->
  stats_body (answer r w) =
  Some {| stats_total_received := total_received (data_store w);
          stats_error_count := error_count (data_store w);
          stats_last_updated := last_updated (data_store w);
          stats_has_data :=
            match latest_data (data_store w) with
            | Some _ => true
            | None => false
            end |}.
Proof.
  intros Hc Hp. unfold answer. rewrite (handle_get _ _ Hc).
  pose proof (do_GET_course r w) as (_ & Hstats & _). cbv zeta in Hstats.
  rewrite (Hstats Hp). reflexivity.
Qed.

(** C9. The invariant "[latest_data] is [None] exactly when [last_updated]
    is, and both are [None] exactly when [total_received] is 0" holds of the
    initial store; [add_reading], [increment_errors] and the handling of any
    GET or POST take a store that has it to a store that has it, so every
    store the server reaches has it.  Under it a GET on the stats path is
    answered with the stats of the store, in which [has_data] is true exactly
    when the [total_received] of the store is positive. *)
Theorem store_invariant_kept w :
  store_inv (data_store w) ->
  store_inv init_store /\
  (forall data hs, store_inv (data_store (snd (add_reading data hs w)))) /\
  store_inv (data_store (snd (increment_errors w))) /\
  (forall self,
     store_inv (data_store (snd (do_GET self w))) /\
     store_inv (data_store (snd (do_POST self (connect self w))))) /\
  (forall r, store_inv (store_left r w)) /\
  (forall rs, store_inv (data_store (serve rs init_world))) /\
  (forall r,
     command r = GET -> path r = "/stats" ->
     exists st,
       answer r w =
         [ ResponseLine 200; HeaderLine "Content-type" "application/json";
           EndHeaders; Body (StatsBody st) ] /\
       stats_body (answer r w) = Some st /\
       stats_total_received st = total_received (data_store w) /\
       (stats_has_data st = true <-> latest_data (data_store w) <> None) /\
       (stats_has_data st = true <-> (0 < total_received (data_store w))%N)).
Proof.
  intro H. split; [exact store_inv_init|].
  split; [intros; apply store_inv_add_reading|].
  split; [rewrite increment_errors_run; apply store_inv_with_error, H|].
  split.
  { intro self. split.
    - rewrite (keeps_do_GET self w). exact H.
    - pose proof (do_POST_course self w) as [-> _]. apply store_inv_after, H. }
  split; [intro r; apply store_inv_handled, H|].
  split; [intro rs; apply store_inv_served, store_inv_init|].
  intros r Hc Hp.
  pose proof (do_GET_course r w) as (_ & Hstats & _). cbv zeta in Hstats.
  specialize (Hstats Hp).
  eexists. unfold answer. rewrite (handle_get _ _ Hc), Hstats. cbn [snd wfile].
  split; [reflexivity|]. split; [reflexivity|].
  cbn [stats_has_data stats_total_received].
  split; [reflexivity|].
  destruct H as [[Ha _] [H1 H2]].
  destruct (latest_data (data_store w)) as [rd|].
  - split; [split; [discriminate | reflexivity]|].
    split; [intros _|reflexivity].
    destruct (N.eq_dec (total_received (data_store w)) 0) as [E|E]; [|lia].
    destruct (H2 E) as [Hn _]. discriminate.
  - split; [split; [discriminate | intro Hne; destruct (Hne eq_refl)]|].
    split; [discriminate|]. intro Hpos.
    rewrite (H1 (conj eq_refl (Ha eq_refl))) in Hpos. lia.
Qed.

(** ** The counters over a run of the server *)

Lemma count_cons f r rs :
  count f (r :: rs) = ((if f r then 1 else 0) + count f rs)%N.
Proof.
  unfold count. cbn [filter]. destruct (f r); cbn [List.length]; lia.
Qed.

Lemma handled_counters r w :
  total_received (store_left r w) =
    (total_received (data_store w) + if stores_reading r then 1 else 0)%N /\
  error_count (store_left r w) =
    (error_count (data_store w) + if counts_error r then 1 else 0)%N.
Proof.
  unfold stores_reading, counts_error. destruct (command r) eqn:Hc.
  - rewrite (get_store_left _ _ Hc). lia.
  - rewrite (post_store _ _ Hc).
    destruct (classify_post r) as [| e | | e | data [e|]];
      cbn [store_after with_error with_reading total_received error_count]; lia.
Qed.

(** Over any sequence of requests, [total_received] grows by the number of
    POSTs that stored a reading and [error_count] by the number of POSTs the
    handler answered with an error of its own. *)
Lemma serve_counters rs w :
  total_received (data_store (serve rs w)) =
    (total_received (data_store w) + count stores_reading rs)%N /\
  error_count (data_store (serve rs w)) =
    (error_count (data_store w) + count counts_error rs)%N.
Proof.
  revert w. induction rs as [|r rs IH]; intro w; cbn [serve].
  - unfold count. cbn. lia.
  - destruct (IH (snd (handle_one_request r w))) as [IHt IHe].
    destruct (handled_counters r w) as [Ht He]. unfold store_left in Ht, He.
    rewrite IHt, IHe, Ht, He, !count_cons. lia.
Qed.

(** A failed POST goes uncounted only when the exception escapes, which
    happens only at the conversion of [Content-Length]. *)
Lemma uncounted_failure r :
  post_failed r = true -> counts_error r = false ->
  command r = POST /\ exists e, classify_post r = BadLength e.
Proof.
  unfold post_failed, counts_error.
  destruct (command r); [discriminate|].
  destruct (classify_post r) as [| e | | e | data [e|]]; try discriminate; eauto.
Qed.

(** C3, on a request whose [Content-Length] is not a number: [int] raises
    [ValueError] outside the [try], the exception escapes [do_POST] without
    an answer and without a change to the store, and the stats path
    afterwards reports no error although one POST failed. *)
Theorem escaped_post_not_counted :
  (exists e,
     handle_one_request bad_length_post init_world =
       (Raise e, connect bad_length_post init_world) /\
     exc_class_of e = ValueError) /\
  answer bad_length_post init_world = [] /\
  count post_failed [bad_length_post] = 1%N /\
  count stores_reading [bad_length_post] = 0%N /\
  stats_body (answer (get "/stats") (serve [bad_length_post] init_world)) =
    Some {| stats_total_received := 0; stats_error_count := 0;
            stats_last_updated := None; stats_has_data := false |}.
Proof.
  split; [eexists; split; reflexivity|]. repeat split.
Qed.

End Properties.

(** ** Requests without a body, on any platform *)

(** C8. A POST to a data route whose [Content-Length] is missing or 0 is
    answered with 400 "Empty request body"; nothing is read from the
    connection and nothing is parsed (the outcome is the same whatever
    [json.loads] would do); [error_count] grows by one and the stored
    reading, [last_updated] and [total_received] stay as they were. *)
Theorem empty_post_rejected {P : Platform} (r : Request) (w : World) :
  announces_no_body r ->
  fst (handle_one_request r w) = Ok tt /\
  answer r w = [ErrorResponse 400 (u "Empty request body")] /\
  rfile (snd (handle_one_request r w)) = body_stream r /\
  (forall Q : Platform,
     @clock Q = @clock P ->
     @handle_one_request Q r w = @handle_one_request P r w) /\
  error_count (store_left r w) = (error_count (data_store w) + 1)%N /\
  latest_data (store_left r w) = latest_data (data_store w) /\
  last_updated (store_left r w) = last_updated (data_store w) /\
  total_received (store_left r w) = total_received (data_store w).
Proof.
  intro Ha. unfold answer, store_left.
  rewrite (no_body_run r w Ha). cbn [fst snd rfile wfile data_store].
  repeat split.
  intros Q Hclock. rewrite (@no_body_run Q r w Ha), Hclock. reflexivity.
Qed.

(** * The properties at work on concrete requests *)

Lemma sample_post_accepted : accepted sample_post sample_payload.
Proof.
  split; [reflexivity|]. split; [right; reflexivity|].
  exists 13, (body_stream sample_post).
  split; [reflexivity|]. split; [discriminate|]. split; reflexivity.
Defined.

Lemma bare_post_accepted : accepted bare_post (JDict []).
Proof.
  split; [reflexivity|]. split; [left; reflexivity|].
  exists 2, (body_stream bare_post).
  split; [reflexivity|]. split; [discriminate|]. split; reflexivity.
Defined.

Lemma garbage_post_malformed : malformed garbage_post.
Proof.
  split; [reflexivity|]. split; [right; reflexivity|].
  exists 1, (body_stream garbage_post).
  split; [reflexivity|]. split; [discriminate|]. split; [reflexivity|].
  split; [discriminate|]. intros data H. vm_compute in H. discriminate H.
Defined.

Lemma not_utf8_post_malformed : malformed not_utf8_post.
Proof.
  split; [reflexivity|]. split; [right; reflexivity|].
  exists 1, (body_stream not_utf8_post).
  split; [reflexivity|]. split; [discriminate|]. split; [reflexivity|].
  split; [discriminate|]. intros data H. vm_compute in H. discriminate H.
Defined.

Lemma empty_post_announces_no_body : announces_no_body empty_post.
Proof.
  split; [reflexivity|]. split; [right; reflexivity|].
  right. exists "0". split; reflexivity.
Defined.

Lemma valid_json_post_received_witness :
  accepted sample_post sample_payload /\
  total_received (store_left sample_post busy_world) = 2%N /\
  last_updated (store_left sample_post busy_world) =
    Some (clock (now_calls busy_world)).
Proof.
  split; [exact sample_post_accepted|].
  destruct (valid_json_post_received sample_post busy_world sample_payload
              sample_post_accepted) as (Ht & Hl & _).
  split; [exact Ht | exact Hl].
Defined.

(** C2 as stated fails: a body that is not UTF-8 is not valid JSON, yet it is
    answered with 500, not 400. *)
Lemma not_utf8_post_answered_500 :
  malformed not_utf8_post /\
  status_code (answer not_utf8_post init_world) = Some 500 /\
  status_code (answer not_utf8_post init_world) <> Some 400.
Proof.
  split; [exact not_utf8_post_malformed|]. split; [reflexivity|discriminate].
Qed.

Lemma malformed_post_counted_witness :
  malformed garbage_post /\
  error_count (store_left garbage_post busy_world) = 2%N /\
  total_received (store_left garbage_post busy_world) = 1%N /\
  latest_data (store_left garbage_post busy_world) =
    latest_data (data_store busy_world) /\
  status_code (answer garbage_post busy_world) = Some 400.
Proof.
  split; [exact garbage_post_malformed|].
  destruct (malformed_post_counted garbage_post busy_world garbage_post_malformed)
    as (He & Ht & Hl & _ & _).
  split; [exact He|]. split; [exact Ht|]. split; [exact Hl|]. reflexivity.
Defined.

Lemma successful_post_replaces_reading_witness :
  command sample_post = POST /\
  status_code (answer sample_post init_world) = Some 200 /\
  latest_data (store_left sample_post init_world) =
    latest_data (store_left sample_post busy_world).
Proof.
  split; [reflexivity|]. split; [reflexivity|].
  exact (proj1 (successful_post_replaces_reading sample_post init_world busy_world
                  eq_refl eq_refl)).
Defined.

(** C5 as stated fails: [/index.html] is none of [/], [/stats] and
    [/sensor-data], yet a GET on it is served, not answered with 404. *)
Lemma index_html_is_served :
  command (get "/index.html") = GET /\
  path (get "/index.html") <> "/" /\
  path (get "/index.html") <> "/stats" /\
  path (get "/index.html") <> "/sensor-data" /\
  status_code (answer (get "/index.html") init_world) = Some 200 /\
  status_code (answer (get "/index.html") init_world) <> Some 404.
Proof. repeat split; discriminate. Qed.

Lemma dispatch_by_route_witness :
  command (get "/history") = GET /\
  ~ dashboard_route (path (get "/history")) /\
  ~ stats_route (path (get "/history")) /\
  answer (get "/history") busy_world = [ErrorResponse 404 (u "Not Found")] /\
  store_left (get "/history") busy_world = data_store busy_world.
Proof.
  assert (Hd : ~ dashboard_route (path (get "/history"))).
  { intros [H|H]; discriminate H. }
  assert (Hs : ~ stats_route (path (get "/history"))).
  { intro H; discriminate H. }
  split; [reflexivity|]. split; [exact Hd|]. split; [exact Hs|].
  exact (proj2 (proj1 (dispatch_by_route (get "/history") busy_world) eq_refl)
           Hd Hs).
Defined.

Lemma stored_metadata_from_headers_witness :
  accepted sample_post sample_payload /\
  exists rd,
    latest_data (store_left sample_post init_world) = Some rd /\
    sensor_data rd = sample_payload /\
    dict_lookup "source_ip" (metadata rd) = Some "192.168.1.50" /\
    dict_lookup "mqtt_topic" (metadata rd) = Some "qingping/up".
Proof.
  split; [exact sample_post_accepted|].
  destruct (stored_metadata_from_headers sample_post init_world sample_payload
              sample_post_accepted) as (rd & Hl & Hd & _ & Hf).
  exists rd. split; [exact Hl|]. split; [exact Hd|]. split.
  - apply (proj2 (Hf "source_ip" "X-Source-IP" (or_introl eq_refl))).
    reflexivity.
  - apply (proj2 (Hf "mqtt_topic" "X-MQTT-Topic"
                    (or_intror (or_intror (or_intror (or_intror (or_intror
                       (or_introl eq_refl)))))))).
    reflexivity.
Defined.

Lemma empty_post_rejected_witness :
  announces_no_body empty_post /\
  answer empty_post busy_world = [ErrorResponse 400 (u "Empty request body")] /\
  error_count (store_left empty_post busy_world) = 2%N /\
  total_received (store_left empty_post busy_world) = 1%N.
Proof.
  split; [exact empty_post_announces_no_body|].
  destruct (empty_post_rejected empty_post busy_world empty_post_announces_no_body)
    as (_ & Ha & _ & _ & He & _ & _ & Ht).
  split; [exact Ha|]. split; [exact He | exact Ht].
Defined.

Lemma init_store_inv : store_inv (data_store init_world).
Proof.
  split; split; intro H; try reflexivity; try (split; reflexivity).
Defined.

Lemma store_invariant_kept_witness :
  store_inv (data_store busy_world) /\
  store_inv (store_left sample_post busy_world) /\
  store_inv (data_store (serve [sample_post; garbage_post; empty_post] init_world)) /\
  exists st,
    stats_body (answer (get "/stats") busy_world) = Some st /\
    stats_has_data st = true /\ stats_total_received st = 1%N.
Proof.
  assert (Hinv : store_inv (data_store busy_world)).
  { split; split; intro H; vm_compute in H; try discriminate H;
      destruct H as [H _]; discriminate H. }
  split; [exact Hinv|].
  destruct (store_invariant_kept busy_world Hinv)
    as (_ & _ & _ & _ & Hr & Hs & Hstats).
  split; [exact (Hr sample_post)|]. split; [exact (Hs _)|].
  destruct (Hstats (get "/stats") eq_refl eq_refl) as (st & _ & Hb & Ht & Hd & _).
  exists st. split; [exact Hb|]. split; [|exact Ht].
  apply Hd. intro H. vm_compute in H. discriminate H.
Defined.

Lemma absent_header_stored_empty_witness :
  accepted bare_post (JDict []) /\
  In ("protocol", "X-Protocol") forwarding_table /\
  message_lookup "X-Protocol" (headers bare_post) = None /\
  exists rd,
    latest_data (store_left bare_post init_world) = Some rd /\
    dict_lookup "protocol" (metadata rd) = Some "".
Proof.
  assert (Hin : In ("protocol", "X-Protocol") forwarding_table).
  { right; right; right; left; reflexivity. }
  split; [exact bare_post_accepted|]. split; [exact Hin|].
  split; [reflexivity|].
  exact (proj1 (absent_header_stored_empty bare_post init_world (JDict [])
                  "protocol" "X-Protocol" bare_post_accepted Hin eq_refl)).
Defined.

(** A reading can be stored and counted as an error by the same POST: a
    payload that is JSON but not an object is stored, and then the lookup of
    its [mac] raises. *)
Example stored_then_failed :
  store_left list_post init_world =
    {| latest_data := Some (reading_of (JList [JInt 1]) (headers list_post));
       last_updated := Some (clock 0);
       total_received := 1; error_count := 1 |} /\
  status_code (answer list_post init_world) = Some 500.
Proof. split; reflexivity. Qed.

(** A [Content-Length] beyond what [rfile.read] takes, or beyond what the
    machine has room for, makes the read raise inside the [try]: the request
    is answered with 500 and counted as an error, nothing is stored and the
    body is left unread.  Such a request is not an accepted one. *)
Example oversized_post_refused :
  answer oversized_post init_world =
    [ErrorResponse 500
       (u "Internal server error: cannot fit 'int' into an index-sized integer")] /\
  store_left oversized_post init_world = with_error init_store /\
  rfile (snd (handle_one_request oversized_post init_world)) =
    body_stream oversized_post /\
  forall data, ~ accepted oversized_post data.
Proof.
  split; [reflexivity|]. split; [reflexivity|]. split; [reflexivity|].
  intros data (_ & _ & n & post_data & Hn & _ & Hb & _).
  vm_compute in Hn. injection Hn as <-. vm_compute in Hb. discriminate Hb.
Qed.

Example unallocatable_post_refused :
  answer unallocatable_post init_world =
    [ErrorResponse 500 (u "Internal server error: ")] /\
  store_left unallocatable_post init_world = with_error init_store /\
  rfile (snd (handle_one_request unallocatable_post init_world)) =
    body_stream unallocatable_post /\
  forall data, ~ accepted unallocatable_post data.
Proof.
  split; [reflexivity|]. split; [reflexivity|]. split; [reflexivity|].
  intros data (_ & _ & n & post_data & Hn & _ & Hb & _).
  vm_compute in Hn. injection Hn as <-. vm_compute in Hb. discriminate Hb.
Qed.

(** A [Content-Length] of more than 4300 digits makes [int] raise outside
    the [try], whatever number it writes: nothing is sent and nothing is
    counted.  Such a request does not announce an empty body. *)
Example padded_length_post_escapes :
  handle_one_request padded_length_post init_world =
    (Raise too_many_digits, connect padded_length_post init_world) /\
  ~ announces_no_body padded_length_post.
Proof.
  split; [vm_compute; reflexivity|].
  intros (_ & _ & [H | (v & Hv & H0)]).
  - vm_compute in H. discriminate H.
  - vm_compute in Hv. injection Hv as <-. vm_compute in H0. discriminate H0.
Qed.

(** * Further properties *)

Section Further.

Context {P : Platform}.

Local Open Scope monad_scope.

(** ** The sensor cards *)

(** Working out a card neither reads nor changes the world. *)
Lemma _format_sensor_value_pure name sensor_obj unit :
  exists res, forall w, _format_sensor_value name sensor_obj unit w = (res, w).
Proof.
  unfold _format_sensor_value.
  destruct (negb (truthy sensor_obj)); [eexists; reflexivity|].
  unfold bind, lift, ret.
  destruct (py_contains (u "value") sensor_obj) as [has|e]; [|eexists; reflexivity].
  destruct (negb has); [eexists; reflexivity|].
  destruct (py_getitem sensor_obj (u "value")) as [value|e]; [|eexists; reflexivity].
  destruct (py_get sensor_obj (u "status") (JInt 0)) as [status|e];
    [|eexists; reflexivity].
  destruct (name =? "CO2")%string.
  { destruct (py_gt value 1000); eexists; reflexivity. }
  destruct ((name =? "PM2.5") || (name =? "PM10"))%string.
  { destruct (py_gt value 35); eexists; reflexivity. }
  eexists; reflexivity.
Qed.


(** X1. For a sensor object with an integer value the card is always made;
    it is a warning card exactly when the sensor has a bound (1000 for CO2,
    35 for PM2.5 and PM10) and the value lies strictly above it, and a good
    card otherwise; its status reads "Normal" exactly when the status is
    missing or equal to 0. *)
Theorem sensor_card_threshold name d v unit w :
  lookup (u "value") d = Some (JInt v) ->
  exists card,
    _format_sensor_value name (JDict d) unit w = (Ok (Some card), w) /\
    card_name card = name /\ card_value card = JInt v /\ card_unit card = unit /\
    (card_class card = "sensor-card warning" \/ card_class card = "sensor-card good") /\
    (card_class card = "sensor-card warning" <->
     exists bound, threshold name = Some bound /\ bound < v) /\
    (card_status card = None <->
     match lookup (u "status") d with
     | Some status => py_eq_zero status = true
     | None => True
     end).
Proof.
  intro Hv.
  assert (Ht : truthy (JDict d) = true) by (destruct d; [discriminate Hv | reflexivity]).
  unfold _format_sensor_value, threshold. rewrite Ht. cbn [negb].
  unfold bind, lift, ret, py_contains, py_getitem, py_get, py_gt.
  rewrite Hv. cbn [negb].
  assert (Hs : forall status : option json,
             (if py_eq_zero match status with Some x => x | None => JInt 0 end
              then None else Some match status with Some x => x | None => JInt 0 end)
             = None <->
             match status with Some st => py_eq_zero st = true | None => True end).
  { intros [st|]; cbn.
    - destruct (py_eq_zero st); split; congruence.
    - tauto. }
  destruct (name =? "CO2")%string.
  { eexists. split; [reflexivity|]. cbn [card_name card_value card_unit card_class card_status].
    repeat (split; [reflexivity|]).
    destruct (1000 <? v) eqn:E; cbn.
    - split; [left; reflexivity|]. split; [|apply Hs].
      split; [intros _; exists 1000; split; [reflexivity|apply Z.ltb_lt, E]|reflexivity].
    - split; [right; reflexivity|]. split; [|apply Hs].
      split; [discriminate|]. intros (b & [= <-] & Hb). apply Z.ltb_lt in Hb. congruence. }
  destruct ((name =? "PM2.5") || (name =? "PM10"))%string.
  { eexists. split; [reflexivity|]. cbn [card_name card_value card_unit card_class card_status].
    repeat (split; [reflexivity|]).
    destruct (35 <? v) eqn:E; cbn.
    - split; [left; reflexivity|]. split; [|apply Hs].
      split; [intros _; exists 35; split; [reflexivity|apply Z.ltb_lt, E]|reflexivity].
    - split; [right; reflexivity|]. split; [|apply Hs].
      split; [discriminate|]. intros (b & [= <-] & Hb). apply Z.ltb_lt in Hb. congruence. }
  eexists. split; [reflexivity|]. cbn [card_name card_value card_unit card_class card_status].
  repeat (split; [reflexivity|]). cbn.
  split; [right; reflexivity|]. split; [|apply Hs].
  split; [discriminate|]. intros (b & Hb & _). discriminate Hb.
Qed.

(** X2. A sensor value that is not a number makes [_format_sensor_value]
    raise [TypeError] for the sensors that have a bound (CO2, PM2.5, PM10),
    where it is compared; for every other sensor the same object gives a good
    card showing the value as it is. *)
Theorem sensor_value_not_a_number name d v unit w :
  lookup (u "value") d = Some v ->
  is_number v = false ->
  match threshold name with
  | Some _ =>
      exists e,
        _format_sensor_value name (JDict d) unit w = (Raise e, w) /\
        exc_class_of e = TypeError
  | None =>
      exists card,
        _format_sensor_value name (JDict d) unit w = (Ok (Some card), w) /\
        card_value card = v /\ card_class card = "sensor-card good"
  end.
Proof.
  intros Hv Hn.
  assert (Ht : truthy (JDict d) = true) by (destruct d; [discriminate Hv | reflexivity]).
  assert (Hgt : forall bound, exists e, py_gt v bound = Raise e /\ exc_class_of e = TypeError).
  { intro bound. destruct v; try discriminate Hn; eexists; split; reflexivity. }
  unfold _format_sensor_value, threshold. rewrite Ht. cbn [negb].
  unfold bind, lift, ret, py_contains, py_getitem, py_get.
  rewrite Hv. cbn [negb].
  destruct (name =? "CO2")%string.
  { destruct (Hgt 1000) as (e & -> & He). exists e. split; [reflexivity | exact He]. }
  destruct ((name =? "PM2.5") || (name =? "PM10"))%string.
  { destruct (Hgt 35) as (e & -> & He). exists e. split; [reflexivity | exact He]. }
  eexists. split; [reflexivity|]. split; reflexivity.
Qed.

Lemma _format_sensor_value_some name sensor_obj unit w card w' :
  _format_sensor_value name sensor_obj unit w = (Ok (Some card), w') ->
  card_name card = name /\ card_unit card = unit /\
  py_getitem sensor_obj (u "value") = Ok (card_value card).
Proof.
  unfold _format_sensor_value.
  destruct (negb (truthy sensor_obj)); [discriminate|].
  unfold bind, lift, ret.
  destruct (py_contains (u "value") sensor_obj) as [has|e]; [|discriminate].
  destruct (negb has); [discriminate|].
  destruct (py_getitem sensor_obj (u "value")) as [value|e]; [|discriminate].
  destruct (py_get sensor_obj (u "status") (JInt 0)) as [status|e]; [|discriminate].
  destruct (name =? "CO2")%string.
  { destruct (py_gt value 1000); [|discriminate]. intros [= <- _]. repeat split. }
  destruct ((name =? "PM2.5") || (name =? "PM10"))%string.
  { destruct (py_gt value 35); [|discriminate]. intros [= <- _]. repeat split. }
  intros [= <- _]. repeat split.
Qed.

(** X3. The cards made from a reading that is an object come from that
    reading: each card has the title and unit of a row of the table, and
    shows the value found under ["value"] in the sensor object that the
    reading holds under the key of that row.  There are never more cards than
    rows. *)
Theorem cards_come_from_reading fd rows w cards w' :
  sensor_cards (JDict fd) rows w = (Ok cards, w') ->
  w' = w /\
  (List.length cards <= List.length rows)%nat /\
  Forall (fun card =>
            exists key sensor_obj,
              In (card_name card, key, card_unit card) rows /\
              lookup (u key) fd = Some sensor_obj /\
              py_getitem sensor_obj (u "value") = Ok (card_value card))
         cards.
Proof.
  revert cards w'.
  induction rows as [|[[name key] unit] rest IH]; intros cards w'; cbn [sensor_cards].
  - intros [= <- <-]. repeat split; [apply Nat.le_refl | constructor].
  - unfold bind at 1. unfold lift at 1, py_get.
    unfold bind at 1.
    destruct (_format_sensor_value name _ unit w) as [[card|e] w1] eqn:Hc;
      [|discriminate].
    unfold bind at 1.
    destruct (sensor_cards (JDict fd) rest w1) as [[cs|e] w2] eqn:Hr; [|discriminate].
    unfold ret. intros [= <- <-].
    assert (w1 = w) as ->.
    { destruct (_format_sensor_value_pure name
                  match lookup (u key) fd with Some x => x | None => JDict [] end unit)
        as [res Hp].
      rewrite Hp in Hc. congruence. }
    destruct (IH cs w2 Hr) as (-> & Hlen & Hall).
    assert (Hall' : Forall (fun card0 =>
              exists key0 sensor_obj,
                In (card_name card0, key0, card_unit card0) ((name, key, unit) :: rest) /\
                lookup (u key0) fd = Some sensor_obj /\
                py_getitem sensor_obj (u "value") = Ok (card_value card0)) cs).
    { eapply Forall_impl; [|exact Hall].
      intros c (k & o & Hin & Hl & Hg). exists k, o. split; [right; exact Hin | auto]. }
    split; [reflexivity|].
    destruct card as [c|].
    + split; [cbn [List.length]; apply le_n_S, Hlen|].
      constructor; [|exact Hall'].
      destruct (lookup (u key) fd) as [o|] eqn:Hl; [|discriminate Hc].
      destruct (_format_sensor_value_some _ _ _ _ _ _ Hc) as (Hname & Hunit & Hval).
      exists key, o. rewrite Hname, Hunit. split; [left; reflexivity | auto].
    + split; [|exact Hall'].
      cbn [List.length]. apply Nat.le_trans with (List.length rest);
        [exact Hlen | apply Nat.le_succ_diag_r].
Qed.

(** ** The dashboard *)






(** ** More on POST *)

Lemma accepted_classify r data :
  accepted r data ->
  classify_post r =
  Stored data match receipt_line data (headers r) with
              | Ok _ => None
              | Raise e => Some e
              end.
Proof.
  intros (_ & Hp & n & post_data & Hn & H0 & Hb & Hj).
  unfold classify_post.
  rewrite (data_route_true _ Hp), Hn.
  apply Z.eqb_neq in H0. rewrite H0, Hb, Hj. reflexivity.
Qed.

(** X7. A payload that is valid JSON but not an object is stored and counted
    as received, and then the request fails at the lookup of its [mac]: it is
    answered with 500 and counted as an error as well. *)
Theorem non_object_stored_and_failed r w data :
  accepted r data ->
  is_dict data = false ->
  latest_data (store_left r w) = Some (reading_of data (headers r)) /\
  total_received (store_left r w) = (total_received (data_store w) + 1)%N /\
  error_count (store_left r w) = (error_count (data_store w) + 1)%N /\
  status_code (answer r w) = Some 500.
Proof.
  intros Hacc Hnd. pose proof Hacc as (Hc & _).
  assert (Hline : exists e, receipt_line data (headers r) = Raise e /\
                            is_JSONDecodeError e = false).
  { unfold receipt_line, py_get.
    destruct data; try discriminate Hnd; eexists; split; reflexivity. }
  destruct Hline as (e & Hline & He).
  pose proof (accepted_classify r data Hacc) as Hk. rewrite Hline in Hk.
  rewrite (post_store r w Hc), Hk. cbn [store_after with_error with_reading
    latest_data total_received error_count].
  repeat (split; [reflexivity|]).
  unfold answer. rewrite (handle_post _ _ Hc).
  pose proof (do_POST_course r w) as [_ Hcourse]. cbv zeta in Hcourse.
  rewrite Hk in Hcourse. rewrite Hcourse. unfold error_answer. rewrite He.
  reflexivity.
Qed.


(** What is left of the request when [do_POST] is done. *)
Lemma do_POST_rfile r w :
  rfile (snd (do_POST r (connect r w))) =
  match content_length_of (headers r) with
  | Ok n =>
      if is_data_route (path r) && negb (n =? 0)
      then match read_failure n with
           | Some _ => body_stream r
           | None => skipn (bytes_read r n) (body_stream r)
           end
      else body_stream r
  | Raise _ => body_stream r
  end.
Proof.
  destruct w as [[ld lu tr ec] nc err rf wf].
  unfold do_POST, is_data_route, bytes_read.
  destruct ((path r =? "/")%string || (path r =? "/sensor-data")%string);
    cbn [andb].
  2:{ run. destruct (content_length_of (headers r)); reflexivity. }
  destruct (content_length_of (headers r)) as [n|e]; run; [|reflexivity].
  destruct (n =? 0); run; [reflexivity|]. cbn [negb].
  destruct (read_failure n) as [e|]; run.
  { destruct (is_JSONDecodeError e); run;
    destruct (percent_no_args _); reflexivity. }
  destruct (decode_utf8 _) as [t|e]; run.
  2:{ destruct (is_JSONDecodeError e); run;
      destruct (percent_no_args _); reflexivity. }
  destruct (json_loads t) as [data|e]; run.
  2:{ destruct (is_JSONDecodeError e); run;
      destruct (percent_no_args _); reflexivity. }
  destruct (py_get data _ _) as [mac|e]; run.
  2:{ destruct (is_JSONDecodeError e); run;
      destruct (percent_no_args _); reflexivity. }
  destruct (dict_getitem _ _) as [source|e]; run.
  2:{ destruct (is_JSONDecodeError e); run;
      destruct (percent_no_args _); reflexivity. }
  destruct (percent_no_args _) as [line|e]; run.
  2:{ destruct (is_JSONDecodeError e); run;
      destruct (percent_no_args _); reflexivity. }
  reflexivity.
Qed.


(** X9. A content length below -1 is refused by [rfile.read] inside the
    [try]: nothing is read, the request is answered with 500 and counted as an
    error, and the reading, its time and [total_received] stay as they
    were. *)
Theorem negative_length_rejected r w n :
  command r = POST -> data_route (path r) ->
  content_length_of (headers r) = Ok n -> n < -1 ->
  status_code (answer r w) = Some 500 /\
  rfile (snd (handle_one_request r w)) = body_stream r /\
  store_left r w = with_error (data_store w).
Proof.
  intros Hc Hp Hn Hlt.
  assert (H0 : (n =? 0) = false) by (apply Z.eqb_neq; lia).
  assert (Hl : read_failure n =
               Some (mkExc ValueError (u "read length must be non-negative or -1"))).
  { unfold read_failure. apply Z.ltb_lt in Hlt. rewrite Hlt. reflexivity. }
  assert (Hk : classify_post r =
               Rejected (mkExc ValueError (u "read length must be non-negative or -1"))).
  { unfold classify_post, body_of.
    rewrite (data_route_true _ Hp), Hn, H0, Hl. reflexivity. }
  split; [|split].
  - unfold answer. rewrite (handle_post _ _ Hc).
    pose proof (do_POST_course r w) as [_ Hcourse]. cbv zeta in Hcourse.
    rewrite Hk in Hcourse. rewrite Hcourse. reflexivity.
  - rewrite (handle_post _ _ Hc), do_POST_rfile, Hn, H0, Hl.
    destruct (is_data_route (path r)); reflexivity.
  - rewrite (post_store r w Hc), Hk. reflexivity.
Qed.

(** The whole run of an accepted POST whose receipt line can be logged. *)
Lemma accepted_run r w data line :
  accepted r data ->
  receipt_line data (headers r) = Ok line ->
  exists unread,
    handle_one_request r w =
    (Ok tt,
     mkWorld
       (with_reading (reading_of data (headers r)) (clock (now_calls w)) (data_store w))
       (4 + now_calls w)
       (stderr w ++ [ (clock (1 + now_calls w), LogText line);
                      (clock (2 + now_calls w), LogRequest 200) ])%list
       unread
       [ ResponseLine 200; HeaderLine "Content-type" "application/json"; EndHeaders;
         Body (ReceivedBody (clock (3 + now_calls w))) ]).
Proof.
  intros (Hc & Hp & n & post_data & Hn & H0 & Hb & Hj) Hline.
  rewrite (handle_post _ _ Hc).
  apply is_data_route_iff in Hp. unfold is_data_route in Hp.
  apply Z.eqb_neq in H0.
  unfold body_of in Hb.
  destruct (read_failure n) eqn:Hlt; [discriminate|]. injection Hb as Hb.
  unfold parse_json in Hj.
  destruct (decode_utf8 post_data) as [t|] eqn:Hd; [|discriminate].
  unfold receipt_line in Hline.
  destruct (py_get data (u "mac") (JStr (u "unknown"))) as [mac|] eqn:Hmac;
    [|discriminate].
  destruct (dict_getitem (forwarding_headers (headers r)) "X-Source-IP")
    as [source|] eqn:Hsrc; [|discriminate].
  destruct w as [[ld lu tr ec] nc err rf wf].
  unfold do_POST. rewrite Hp, Hn. run. rewrite H0. run. rewrite Hlt. run.
  rewrite Hb, Hd. run. rewrite Hj. run. rewrite Hmac. run. rewrite Hsrc. run.
  rewrite Hline. run.
  rewrite <- !app_assoc. eexists. reflexivity.
Qed.

(** X10. An accepted POST whose receipt line can be logged is answered with
    200 and a JSON body; [received_at] in that body is a clock reading taken
    after the one stored as [last_updated] (three readings later), the
    receipt and the request are logged in this order, and [error_count] is
    left alone. *)
Theorem accepted_post_answered r w data line :
  accepted r data ->
  receipt_line data (headers r) = Ok line ->
  fst (handle_one_request r w) = Ok tt /\
  answer r w =
    [ ResponseLine 200; HeaderLine "Content-type" "application/json"; EndHeaders;
      Body (ReceivedBody (clock (3 + now_calls w))) ] /\
  last_updated (store_left r w) = Some (clock (now_calls w)) /\
  error_count (store_left r w) = error_count (data_store w) /\
  stderr (snd (handle_one_request r w)) =
    (stderr w ++ [ (clock (1 + now_calls w), LogText line);
                   (clock (2 + now_calls w), LogRequest 200) ])%list /\
  now_calls (snd (handle_one_request r w)) = (4 + now_calls w)%nat.
Proof.
  intros Hacc Hline.
  destruct (accepted_run r w data line Hacc Hline) as [unread Hrun].
  unfold answer, store_left. rewrite Hrun.
  cbn [fst snd data_store now_calls stderr wfile with_reading last_updated
       error_count].
  repeat split.
Qed.

(** X11. A POST is answered at most once, and only with 200, 400, 404 or
    500: the answer is empty (an exception escaped before anything was sent),
    or one error response with one of these three codes, or the 200 answer
    with its JSON body. *)
Theorem post_answer_shape r w :
  command r = POST ->
  answer r w = [] \/
  (exists code message,
     answer r w = [ErrorResponse code message] /\
     (code = 400 \/ code = 404 \/ code = 500)) \/
  (exists received_at,
     answer r w =
       [ ResponseLine 200; HeaderLine "Content-type" "application/json";
         EndHeaders; Body (ReceivedBody received_at) ]).
Proof.
  intro Hc.
  pose proof (do_POST_course r w) as [_ Hcourse]. cbv zeta in Hcourse.
  assert (Herr : forall e, exists code message,
            [error_answer e] = [ErrorResponse code message] /\
            (code = 400 \/ code = 404 \/ code = 500)).
  { intro e. unfold error_answer. destruct (is_JSONDecodeError e);
      do 2 eexists; (split; [reflexivity|]); auto. }
  destruct (classify_post r) as [| e | | e | data [e|]] eqn:Hk.
  - right; left. exists 404, (u "Not Found"). unfold answer.
    rewrite (handle_post _ _ Hc). split; [apply Hcourse | auto].
  - left. unfold answer. rewrite (handle_post _ _ Hc), Hcourse. reflexivity.
  - right; left. exists 400, (u "Empty request body"). unfold answer.
    rewrite (handle_post _ _ Hc), Hcourse. split; [reflexivity | auto].
  - right; left. unfold answer. rewrite (handle_post _ _ Hc), Hcourse. apply Herr.
  - right; left. unfold answer. rewrite (handle_post _ _ Hc), Hcourse. apply Herr.
  - right; right. exists (clock (3 + now_calls w)).
    pose proof (course_accepted r data None Hc Hk) as Hacc.
    pose proof (accepted_classify r data Hacc) as Hk'. rewrite Hk in Hk'.
    destruct (receipt_line data (headers r)) as [line|] eqn:Hline; [|discriminate].
    destruct (accepted_run r w data line Hacc Hline) as [unread Hrun].
    unfold answer. rewrite Hrun. reflexivity.
Qed.

(** ** Runs of the server *)

Lemma serve_app rs1 rs2 w : serve (rs1 ++ rs2) w = serve rs2 (serve rs1 w).
Proof.
  revert w. induction rs1 as [|r rs1 IH]; intro w; cbn [serve app].
  - reflexivity.
  - apply IH.
Qed.

Lemma count_le_length f rs : (count f rs <= N.of_nat (List.length rs))%N.
Proof.
  unfold count. pose proof (filter_length_le f rs). lia.
Qed.

Lemma count_none (f : Request -> bool) rs :
  Forall (fun r => f r = false) rs -> count f rs = 0%N.
Proof.
  unfold count. induction 1 as [|r rs' Hr _ IH]; [reflexivity|].
  cbn [filter]. rewrite Hr. exact IH.
Qed.

(** A request that stores nothing leaves the reading and its time alone. *)
Lemma not_storing_keeps_reading r w :
  stores_reading r = false ->
  latest_data (store_left r w) = latest_data (data_store w) /\
  last_updated (store_left r w) = last_updated (data_store w).
Proof.
  unfold stores_reading. destruct (command r) eqn:Hc.
  - intros _. rewrite (get_store_left _ _ Hc). split; reflexivity.
  - rewrite (post_store _ _ Hc).
    destruct (classify_post r) as [| e | | e | data late];
      try discriminate; intros _; split; reflexivity.
Qed.

Lemma not_storing_run_keeps_reading rs w :
  Forall (fun r => stores_reading r = false) rs ->
  latest_data (data_store (serve rs w)) = latest_data (data_store w) /\
  last_updated (data_store (serve rs w)) = last_updated (data_store w).
Proof.
  intro H. revert w. induction H as [|r rs Hr _ IH]; intro w; cbn [serve].
  - split; reflexivity.
  - destruct (IH (snd (handle_one_request r w))) as [-> ->].
    exact (not_storing_keeps_reading r w Hr).
Qed.

(** X12. After any sequence of requests to a fresh server the stats path
    reports as [total_received] the number of POSTs that stored a reading, as
    [error_count] the number of POSTs that [do_POST] answered with an error of
    its own (empty body, rejected body, failure after storing), and
    [has_data] exactly when at least one reading was stored. *)
Theorem stats_after_run rs r :
  command r = GET -> path r = "/stats" ->
  exists st,
    stats_body (answer r (serve rs init_world)) = Some st /\
    stats_total_received st = count stores_reading rs /\
    stats_error_count st = count counts_error rs /\
    stats_has_data st = negb (count stores_reading rs =? 0)%N.
Proof.
  intros Hc Hp. eexists. split; [apply (stats_answer r _ Hc Hp)|].
  destruct (serve_counters rs init_world) as [Ht He].
  cbn [stats_total_received stats_error_count stats_has_data].
  rewrite Ht, He. cbn [init_world data_store init_store total_received error_count].
  rewrite !N.add_0_l. repeat (split; [reflexivity|]).
  pose proof (store_inv_served rs init_world store_inv_init) as [[Ha _] [H1 H2]].
  rewrite Ht in H1, H2.
  cbn [init_world data_store init_store total_received] in H1, H2.
  rewrite N.add_0_l in H1, H2.
  destruct (latest_data (data_store (serve rs init_world))) as [rd|].
  - destruct (N.eqb_spec (count stores_reading rs) 0) as [E|E]; [|reflexivity].
    destruct (H2 E) as [Hn _]. discriminate.
  - rewrite (H1 (conj eq_refl (Ha eq_refl))). reflexivity.
Qed.

(** X13. The counters never go down and never jump: over any sequence of
    requests each of them grows by at least 0 and at most the number of
    requests, and a single request adds 0 or 1 to each. *)
Theorem counters_grow_slowly rs w :
  (total_received (data_store w) <= total_received (data_store (serve rs w))
   <= total_received (data_store w) + N.of_nat (List.length rs))%N /\
  (error_count (data_store w) <= error_count (data_store (serve rs w))
   <= error_count (data_store w) + N.of_nat (List.length rs))%N /\
  forall r,
    (total_received (store_left r w) = total_received (data_store w) \/
     total_received (store_left r w) = total_received (data_store w) + 1)%N /\
    (error_count (store_left r w) = error_count (data_store w) \/
     error_count (store_left r w) = error_count (data_store w) + 1)%N.
Proof.
  destruct (serve_counters rs w) as [Ht He].
  pose proof (count_le_length stores_reading rs).
  pose proof (count_le_length counts_error rs).
  split; [lia|]. split; [lia|].
  intro r. destruct (handled_counters r w) as [Ht1 He1].
  split.
  - destruct (stores_reading r); [right | left]; lia.
  - destruct (counts_error r); [right | left]; lia.
Qed.

(** X14. The store holds the reading of the last POST that stored one: after
    a run in which an accepted POST is followed only by requests that store
    nothing, the latest reading is the one built from that POST, and
    [last_updated] is the clock reading taken when it was handled. *)
Theorem latest_is_last_stored rs r rest w data :
  accepted r data ->
  Forall (fun r' => stores_reading r' = false) rest ->
  latest_data (data_store (serve (rs ++ r :: rest) w)) =
    Some (reading_of data (headers r)) /\
  last_updated (data_store (serve (rs ++ r :: rest) w)) =
    Some (clock (now_calls (serve rs w))).
Proof.
  intros Hacc Hrest. pose proof Hacc as (Hc & _).
  rewrite serve_app. cbn [serve].
  destruct (not_storing_run_keeps_reading rest
              (snd (handle_one_request r (serve rs w))) Hrest) as [-> ->].
  destruct (accepted_course _ _ Hacc) as [late Hk].
  fold (store_left r (serve rs w)).
  rewrite (post_store _ _ Hc), Hk.
  destruct (stored_after data late (headers r) (clock (now_calls (serve rs w)))
              (data_store (serve rs w))) as (Hl & Hu & _).
  split; assumption.
Qed.

(** X15. A reading, once stored, is never taken away: no sequence of
    requests brings [latest_data] or [last_updated] back to [None]. *)
Theorem reading_never_cleared rs w :
  latest_data (data_store w) <> None ->
  last_updated (data_store w) <> None ->
  latest_data (data_store (serve rs w)) <> None /\
  last_updated (data_store (serve rs w)) <> None.
Proof.
  revert w. induction rs as [|r rs IH]; intros w Hl Hu; cbn [serve].
  - split; assumption.
  - apply IH; fold (store_left r w).
    + destruct (stores_reading r) eqn:Hs.
      * unfold stores_reading in Hs. destruct (command r) eqn:Hc; [discriminate|].
        rewrite (post_store _ _ Hc).
        destruct (classify_post r) as [| e | | e | data [e|]]; try discriminate;
          cbn; discriminate.
      * rewrite (proj1 (not_storing_keeps_reading r w Hs)). exact Hl.
    + destruct (stores_reading r) eqn:Hs.
      * unfold stores_reading in Hs. destruct (command r) eqn:Hc; [discriminate|].
        rewrite (post_store _ _ Hc).
        destruct (classify_post r) as [| e | | e | data [e|]]; try discriminate;
          cbn; discriminate.
      * rewrite (proj2 (not_storing_keeps_reading r w Hs)). exact Hu.
Qed.

(** X16. Until the first reading is stored the dashboard is the waiting page:
    after any run of requests none of which stored a reading,
    [get_html_display] does not fail and returns the page without data,
    showing 0 readings, the number of errors counted so far and the time of
    the clock. *)
Theorem waiting_page_until_first_reading rs :
  Forall (fun r => stores_reading r = false) rs ->
  let w := serve rs init_world in
  get_html_display w =
  (Ok (NoDataHtml 0 (count counts_error rs) (clock (now_calls w))),
   mkWorld (data_store w) (S (now_calls w)) (stderr w) (rfile w) (wfile w)).
Proof.
  intros Hrs w.
  destruct (not_storing_run_keeps_reading rs init_world Hrs) as [Hl _].
  destruct (serve_counters rs init_world) as [Ht He].
  fold w in Hl, Ht, He.
  cbn [init_world data_store init_store latest_data total_received error_count]
    in Hl, Ht, He.
  pose proof (count_none stores_reading rs Hrs) as Hc0.
  rewrite Hc0 in Ht. rewrite N.add_0_l in Ht, He.
  unfold get_html_display, _get_no_data_html, bind, get_store, now, ret.
  rewrite Hl, Ht, He. reflexivity.
Qed.

(** X17. A GET on a dashboard route of a server without a reading is
    answered with 200, the type [text/html] and the waiting page; the page
    shows the counters and, as time of the last refresh, the clock reading
    taken after the request was logged.  This holds when the markup of the
    page can be encoded as UTF-8. *)
Theorem waiting_page_answer r w :
  command r = GET -> dashboard_route (path r) ->
  latest_data (data_store w) = None ->
  let page := NoDataHtml (total_received (data_store w)) (error_count (data_store w))
                         (clock (1 + now_calls w)) in
  forall encoded,
    encode_utf8 (markup page) = Ok encoded ->
    fst (handle_one_request r w) = Ok tt /\
    answer r w = (page_head ++ [Body (HtmlBody encoded)])%list /\
    encoded = markup page.
Proof.
  intros Hc Hp Hl page encoded Henc.
  assert (Hroute : ((path r =? "/")%string || (path r =? "/index.html")%string) = true).
  { destruct Hp as [-> | ->]; reflexivity. }
  unfold answer. rewrite (handle_get _ _ Hc). unfold do_GET. rewrite Hroute.
  destruct w as [[ld lu tr ec] nc err rf wf]. cbn [data_store latest_data] in Hl.
  subst ld. unfold get_html_display, _get_no_data_html. run.
  subst page. cbn [data_store total_received error_count now_calls Nat.add] in *.
  rewrite Henc. run.
  repeat split.
  revert Henc. unfold encode_utf8.
  destruct (existsb _ _); [discriminate|]. intros [= <-]. reflexivity.
Qed.

End Further.

(** * The further properties at work on concrete values *)

Lemma sensor_card_threshold_witness :
  lookup (u "value") [(u "value", JInt 1200); (u "status", JInt 2)]
    = Some (JInt 1200) /\
  exists card,
    _format_sensor_value "CO2" co2_high (u "ppm") init_world
      = (Ok (Some card), init_world) /\
    card_value card = JInt 1200.
Proof.
  split; [reflexivity|].
  destruct (sensor_card_threshold "CO2" [(u "value", JInt 1200); (u "status", JInt 2)]
              1200 (u "ppm") init_world eq_refl) as (card & Hrun & _ & Hv & _).
  exists card. split; [exact Hrun | exact Hv].
Defined.

Lemma sensor_value_not_a_number_witness :
  lookup (u "value") [(u "value", JStr (u "n/a"))] = Some (JStr (u "n/a")) /\
  is_number (JStr (u "n/a")) = false /\
  exists e,
    _format_sensor_value "CO2" co2_text (u "ppm") init_world = (Raise e, init_world) /\
    exc_class_of e = TypeError.
Proof.
  split; [reflexivity|]. split; [reflexivity|].
  exact (sensor_value_not_a_number "CO2" [(u "value", JStr (u "n/a"))]
           (JStr (u "n/a")) (u "ppm") init_world eq_refl eq_refl).
Defined.

Lemma cards_come_from_reading_witness :
  sensor_cards (JDict [(u "co2", co2_high)]) sensor_table init_world
    = (Ok [co2_card], init_world) /\
  (List.length [co2_card] <= List.length sensor_table)%nat.
Proof.
  split; [reflexivity|].
  exact (proj1 (proj2 (cards_come_from_reading [(u "co2", co2_high)] sensor_table
                         init_world [co2_card] init_world eq_refl))).
Defined.




Lemma list_post_accepted : accepted list_post (JList [JInt 1]).
Proof.
  split; [reflexivity|]. split; [right; reflexivity|].
  exists 3, (body_stream list_post).
  split; [reflexivity|]. split; [discriminate|]. split; reflexivity.
Defined.

Lemma non_object_stored_and_failed_witness :
  accepted list_post (JList [JInt 1]) /\
  is_dict (JList [JInt 1]) = false /\
  total_received (store_left list_post init_world) = 1%N /\
  error_count (store_left list_post init_world) = 1%N /\
  status_code (answer list_post init_world) = Some 500.
Proof.
  split; [exact list_post_accepted|]. split; [reflexivity|].
  destruct (non_object_stored_and_failed list_post init_world (JList [JInt 1])
              list_post_accepted eq_refl) as (_ & Ht & He & Hs).
  split; [exact Ht|]. split; [exact He | exact Hs].
Defined.


Lemma negative_length_rejected_witness :
  command negative_length_post = POST /\ data_route (path negative_length_post) /\
  content_length_of (headers negative_length_post) = Ok (-5) /\ -5 < -1 /\
  status_code (answer negative_length_post init_world) = Some 500 /\
  error_count (store_left negative_length_post init_world) = 1%N.
Proof.
  split; [reflexivity|]. split; [right; reflexivity|]. split; [reflexivity|].
  split; [reflexivity|].
  destruct (negative_length_rejected negative_length_post init_world (-5)
              eq_refl (or_intror eq_refl) eq_refl eq_refl) as (Hs & _ & Hst).
  split; [exact Hs|]. rewrite Hst. reflexivity.
Defined.

Lemma accepted_post_answered_witness :
  accepted sample_post sample_payload /\
  receipt_line sample_payload (headers sample_post)
    = Ok (u "Received sensor data from MAC: AA (Source: 192.168.1.50)") /\
  status_code (answer sample_post init_world) = Some 200 /\
  error_count (store_left sample_post init_world) = 0%N.
Proof.
  split; [exact sample_post_accepted|]. split; [reflexivity|].
  destruct (accepted_post_answered sample_post init_world sample_payload _
              sample_post_accepted eq_refl) as (_ & Ha & _ & He & _).
  split; [rewrite Ha; reflexivity | exact He].
Defined.

Lemma post_answer_shape_witness :
  command bad_length_post = POST /\
  (answer bad_length_post init_world = [] \/
   (exists code message,
      answer bad_length_post init_world = [ErrorResponse code message] /\
      (code = 400 \/ code = 404 \/ code = 500)) \/
   (exists received_at,
      answer bad_length_post init_world =
        [ ResponseLine 200; HeaderLine "Content-type" "application/json";
          EndHeaders; Body (ReceivedBody received_at) ])).
Proof.
  split; [reflexivity|].
  exact (post_answer_shape bad_length_post init_world eq_refl).
Defined.

Lemma stats_after_run_witness :
  command (get "/stats") = GET /\ path (get "/stats") = "/stats" /\
  exists st,
    stats_body (answer (get "/stats")
                  (serve [sample_post; garbage_post; bad_length_post] init_world))
      = Some st /\
    stats_total_received st = 1%N /\ stats_error_count st = 1%N /\
    stats_has_data st = true.
Proof.
  split; [reflexivity|]. split; [reflexivity|].
  destruct (stats_after_run [sample_post; garbage_post; bad_length_post]
              (get "/stats") eq_refl eq_refl) as (st & Hst & Ht & He & Hd).
  exists st. split; [exact Hst|]. split; [exact Ht|]. split; [exact He | exact Hd].
Defined.

Lemma latest_is_last_stored_witness :
  accepted sample_post sample_payload /\
  Forall (fun r' => stores_reading r' = false) [empty_post; get "/"] /\
  latest_data (data_store (serve ([list_post] ++ sample_post :: [empty_post; get "/"])
                                 init_world))
    = Some (reading_of sample_payload (headers sample_post)).
Proof.
  assert (Hrest : Forall (fun r' => stores_reading r' = false) [empty_post; get "/"]).
  { repeat constructor. }
  split; [exact sample_post_accepted|]. split; [exact Hrest|].
  exact (proj1 (latest_is_last_stored [list_post] sample_post [empty_post; get "/"]
                  init_world sample_payload sample_post_accepted Hrest)).
Defined.

Lemma reading_never_cleared_witness :
  latest_data (data_store busy_world) <> None /\
  last_updated (data_store busy_world) <> None /\
  latest_data (data_store (serve [garbage_post; empty_post; get "/nope"] busy_world))
    <> None.
Proof.
  assert (Hl : latest_data (data_store busy_world) <> None).
  { intro H. vm_compute in H. discriminate H. }
  assert (Hu : last_updated (data_store busy_world) <> None).
  { intro H. vm_compute in H. discriminate H. }
  split; [exact Hl|]. split; [exact Hu|].
  exact (proj1 (reading_never_cleared [garbage_post; empty_post; get "/nope"]
                  busy_world Hl Hu)).
Defined.

Lemma waiting_page_until_first_reading_witness :
  Forall (fun r => stores_reading r = false)
         [garbage_post; empty_post; bad_length_post] /\
  fst (get_html_display (serve [garbage_post; empty_post; bad_length_post] init_world))
    = Ok (NoDataHtml 0 2 (clock 5)).
Proof.
  assert (H : Forall (fun r => stores_reading r = false)
                     [garbage_post; empty_post; bad_length_post]).
  { repeat constructor. }
  split; [exact H|].
  rewrite (waiting_page_until_first_reading _ H). reflexivity.
Defined.

Lemma waiting_page_answer_witness :
  command (get "/") = GET /\ dashboard_route (path (get "/")) /\
  latest_data (data_store init_world) = None /\
  encode_utf8 (markup (NoDataHtml 0 0 (clock 1)))
    = Ok (u "<html>Waiting for sensor data...</html>") /\
  answer (get "/") init_world
    = (page_head ++ [Body (HtmlBody (u "<html>Waiting for sensor data...</html>"))])%list.
Proof.
  split; [reflexivity|]. split; [left; reflexivity|]. split; [reflexivity|].
  split; [reflexivity|].
  exact (proj1 (proj2 (waiting_page_answer (get "/") init_world eq_refl
                         (or_introl eq_refl) eq_refl
                         (u "<html>Waiting for sensor data...</html>") eq_refl))).
Defined.
